(** * System information detection: the fault-isolated probe pipeline

    A shallow embedding of [src/system_info_detection.py]: the [log_errors]
    decorator (the fault boundary), the nine detection probes over the WMI
    management interface, the registry loop of [run_detection], the renderer
    [print_info] and the report sink [generate_output].

    Conventions of the model.
    - Python text is a [string]; the control characters the script writes
      (ESC, CR, LF, TAB) are built from their codes.
    - The exceptions of the model are instances of [Exception];
      [KeyboardInterrupt] and [SystemExit], which [log_errors] does not
      catch, are outside the model.
    - Effects are threaded explicitly: a [state] holds the clock reads, the
      terminal, the [sys.stdout] binding, the files and the error log. *)

From Stdlib Require Import String Ascii List ZArith NArith Lia Bool DecimalString.
Import ListNotations.
Local Open Scope string_scope.

(** ** Python strings *)

Module PyStr.

Definition chr (n : nat) : string := String (ascii_of_nat n) "".

Definition ESC : string := chr 27.
Definition CR : string := chr 13.
Definition LF : string := chr 10.
Definition TAB : string := chr 9.

  (** [str.lower] on the ASCII letters. Bytes of a UTF-8 sequence are left
      alone; the only names compared after lowering are ASCII. *)
Definition lower_ascii (c : ascii) : ascii :=
    let n := nat_of_ascii c in
    if (65 <=? n)%nat && (n <=? 90)%nat then ascii_of_nat (n + 32) else c.

Fixpoint lower (s : string) : string :=
    match s with
    | EmptyString => EmptyString
    | String c s' => String (lower_ascii c) (lower s')
    end.

  (** [needle in hay] *)
Fixpoint contains (needle hay : string) : bool :=
    prefix needle hay ||
    match hay with
    | EmptyString => false
    | String _ hay' => contains needle hay'
    end.

  (** [s.replace(a, b)] for a one-character [a] *)
Fixpoint replace_char (a : ascii) (b : string) (s : string) : string :=
    match s with
    | EmptyString => EmptyString
    | String c s' =>
        (if Ascii.eqb c a then b else String c EmptyString) ++ replace_char a b s'
    end.

  (** [s[:n]] *)
Definition take (n : nat) (s : string) : string := substring 0 (Nat.min n (String.length s)) s.

  (** iterating over a [str] yields its characters *)
Fixpoint chars (s : string) : list string :=
    match s with
    | EmptyString => []
    | String c s' => String c EmptyString :: chars s'
    end.

  (** [sep.join(l)] *)
Definition join (sep : string) (l : list string) : string := String.concat sep l.

  (** [s * n] *)
Fixpoint times (s : string) (n : nat) : string :=
    match n with
    | O => EmptyString
    | S n' => s ++ times s n'
    end.

Definition of_nat (n : nat) : string := NilZero.string_of_uint (Nat.to_uint n).
Definition of_N (n : N) : string := NilZero.string_of_uint (N.to_uint n).
Definition of_Z (z : Z) : string := NilZero.string_of_int (Z.to_int z).

  (** decimal digits of [n], left-padded with zeros to [width] *)
Definition zfill (width : nat) (n : N) : string :=
    let s := of_N n in times "0" (width - String.length s) ++ s.

Fixpoint drop_leading_zeros (l : list ascii) : list ascii :=
    match l with
    | "0"%char :: l' => drop_leading_zeros l'
    | _ => l
    end.

Definition strip_trailing_zeros (s : string) : string :=
    string_of_list_ascii (rev (drop_leading_zeros (rev (list_ascii_of_string s)))).

End PyStr.

(** ** Python values held by record fields *)

(** A float produced by [round(x, digits)] is kept as the decimal it
    denotes: [SFloat digits k] is the float nearest to [k / 10^digits]. *)
Inductive scalar : Type :=
| SNone
| SBool (b : bool)
| SInt (z : Z)
| SFloat (digits : nat) (k : N)
| SStr (s : string).

(** [repr] of the float nearest to [k / 10^digits] (below 1e16, where
    [repr] uses positional notation): the decimal itself, trailing zeros
    removed, one fractional digit kept. *)
Definition float_repr (digits : nat) (k : N) : string :=
  let scale := (10 ^ N.of_nat digits)%N in
  let frac := PyStr.strip_trailing_zeros (PyStr.zfill digits (k mod scale)%N) in
  let frac := match digits with O => "" | _ => frac end in
  PyStr.of_N (k / scale)%N ++ "." ++ (if String.eqb frac "" then "0" else frac).

(** [str(v)], as an f-string field formats it *)
Definition py_str (v : scalar) : string :=
  match v with
  | SNone => "None"
  | SBool true => "True"
  | SBool false => "False"
  | SInt z => PyStr.of_Z z
  | SFloat d k => float_repr d k
  | SStr s => s
  end.

(** truth value of a field *)
Definition truthy (v : scalar) : bool :=
  match v with
  | SNone => false
  | SBool b => b
  | SInt z => negb (z =? 0)%Z
  | SFloat _ k => negb (k =? 0)%N
  | SStr s => negb (String.eqb s "")
  end.

(** ** Byte counts to GiB *)

(** Nearest integer to [a / b], ties to even: the rounding of [round]. *)
Definition round_half_even (a b : N) : N :=
  let q := (a / b)%N in
  let r := (a mod b)%N in
  if (2 * r <? b)%N then q
  else if (b <? 2 * r)%N then (q + 1)%N
  else if N.even q then q else (q + 1)%N.

(** [round(int(n) / (1024**3), digits)], as the scaled decimal. For
    [n < 2^53] the quotient [n / 2^30] is exact in binary floating point,
    so the decimal rounding of the float is the rounding of the rational. *)
Definition round_gib (digits : nat) (n : N) : scalar :=
  SFloat digits (round_half_even (n * 10 ^ N.of_nat digits) (1024 ^ 3)).

(** ** Exceptions and results *)

(** An exception instance: its class name, [str(e)] and the innermost
    frame of its traceback ([tb[-1]]: line, file, function), if any. *)
Record exn : Type := {
  exn_class : string;
  exn_message : string;
  exn_frame : option (nat * string * string)
}.

Inductive result (A : Type) : Type :=
| Ok (a : A)
| Raise (e : exn).
Arguments Ok {A} a.
Arguments Raise {A} e.

Definition is_ok {A} (r : result A) : bool :=
  match r with Ok _ => true | Raise _ => false end.

(** ** Time *)

Record datetime : Type := {
  year : nat; month : nat; day : nat;
  hour : nat; minute : nat; second : nat
}.

Definition pad (width n : nat) : string := PyStr.zfill width (N.of_nat n).

(** [strftime("%Y-%m-%d %H:%M:%S")] *)
Definition strftime_log (t : datetime) : string :=
  pad 4 (year t) ++ "-" ++ pad 2 (month t) ++ "-" ++ pad 2 (day t) ++ " " ++
  pad 2 (hour t) ++ ":" ++ pad 2 (minute t) ++ ":" ++ pad 2 (second t).

(** [.time().strftime('%H:%M:%S')] *)
Definition strftime_hms (t : datetime) : string :=
  pad 2 (hour t) ++ ":" ++ pad 2 (minute t) ++ ":" ++ pad 2 (second t).

(** [strftime("%Y-%m-%d_%H-%M-%S")] *)
Definition strftime_file (t : datetime) : string :=
  pad 4 (year t) ++ "-" ++ pad 2 (month t) ++ "-" ++ pad 2 (day t) ++ "_" ++
  pad 2 (hour t) ++ "-" ++ pad 2 (minute t) ++ "-" ++ pad 2 (second t).

(** day number of a date of the proleptic Gregorian calendar; only
    differences of two of them are used *)
Definition day_number (t : datetime) : Z :=
  let m := Z.of_nat (month t) in
  let y := (Z.of_nat (year t) - (if m <=? 2 then 1 else 0))%Z in
  let era := (y / 400)%Z in
  let yoe := (y mod 400)%Z in
  let doy := ((153 * (m + (if 2 <? m then -3 else 9)) + 2) / 5 + Z.of_nat (day t) - 1)%Z in
  (era * 146097 + (yoe * 365 + yoe / 4 - yoe / 100 + doy))%Z.

(** ** The management interface *)

(** WMI objects: a property is [None] when the interface reports null.
    String properties are [str], integer properties are numbers (the
    64-bit ones arrive as decimal text, which [int] converts), array
    properties are tuples of [str]. *)

Module Win32_ComputerSystem.
Record t : Type := {
    Caption : option string; UserName : option string; Domain : option string
  }.
End Win32_ComputerSystem.

Module Win32_OperatingSystem.
Record t : Type := { InstallDate : option string }.
End Win32_OperatingSystem.

Module Win32_UserAccount.
Record t : Type := {
    Name : option string; Domain : option string; SID : option string;
    Disabled : option bool
  }.
End Win32_UserAccount.

Module Win32_BaseBoard.
Record t : Type := {
    Manufacturer : option string; Product : option string;
    SerialNumber : option string
  }.
End Win32_BaseBoard.

Module Win32_Processor.
Record t : Type := {
    Name : option string; MaxClockSpeed : option N;
    NumberOfCores : option N; NumberOfLogicalProcessors : option N
  }.
End Win32_Processor.

Module Win32_PhysicalMemory.
Record t : Type := {
    Capacity : option N; Manufacturer : option string; Speed : option N
  }.
End Win32_PhysicalMemory.

Module Win32_VideoController.
Record t : Type := { Name : option string }.
End Win32_VideoController.

Module Win32_LogicalDisk.
Record t : Type := {
    Caption : option string; Size : option N; FreeSpace : option N
  }.
End Win32_LogicalDisk.

Module Win32_DiskPartition.
  (** [partition.associators("Win32_LogicalDiskToPartition")] *)
Record t : Type := { associators : result (list Win32_LogicalDisk.t) }.
End Win32_DiskPartition.

Module Win32_DiskDrive.
  (** [associators] is [disk.associators("Win32_DiskDriveToDiskPartition")] *)
Record t : Type := {
    Caption : option string; Size : option N; MediaType : option string;
    associators : result (list Win32_DiskPartition.t)
  }.
End Win32_DiskDrive.

Module Win32_NetworkAdapterConfiguration.
Record t : Type := {
    Description : option string;
    IPAddress : option (list string);
    IPSubnet : option (list string);
    DefaultIPGateway : option (list string);
    DNSServerSearchOrder : option (list string);
    DHCPEnabled : option bool
  }.
End Win32_NetworkAdapterConfiguration.

(** Everything the script reads from its environment. A query of the
    session answers with its records or raises. *)
Record World : Type := {
  os_name : string;
  clock : nat -> datetime;
  script_file : string;
  script_dir : string;
  path_join : string -> string -> string;
  gethostname : string;
  makedirs_error : string -> option exn;
  open_error : string -> option exn;
  platform_system : string;
  platform_architecture : string;
  platform_win32_ver : string * string;
  strptime_Ymd : string -> result datetime;
  wmi_WMI : option exn;
  wmi_ComputerSystem : result (list Win32_ComputerSystem.t);
  wmi_OperatingSystem : result (list Win32_OperatingSystem.t);
  wmi_UserAccount : result (list Win32_UserAccount.t);
  wmi_BaseBoard : result (list Win32_BaseBoard.t);
  wmi_Processor : result (list Win32_Processor.t);
  wmi_PhysicalMemory : result (list Win32_PhysicalMemory.t);
  wmi_VideoController : result (list Win32_VideoController.t);
  wmi_DiskDrive : result (list Win32_DiskDrive.t);
  wmi_NetworkAdapterConfiguration :
    result (list Win32_NetworkAdapterConfiguration.t)
}.

(** ** The error log and the program state *)

Module ErrorRecord.
  (** the [error_data] dictionary of [log_error]; the log file holds one
      [json.dumps] line for each *)
Record t : Type := {
    time : string;
    function : string;
    type : string;
    error : string;
    line : option nat;
    file : option string;
    function_name : option string
  }.
End ErrorRecord.

Record state : Type := {
  ticks : nat;                       (* clock reads so far *)
  stdout : option string;            (* [sys.stdout]: the terminal, or an open file *)
  console : string;                  (* what the terminal shows *)
  files : list (string * string);    (* path, content *)
  dirs : list string;
  log : list ErrorRecord.t           (* logs/error.json, opened in append mode *)
}.

Definition set_ticks (n : nat) (st : state) : state :=
  {| ticks := n; stdout := stdout st; console := console st;
     files := files st; dirs := dirs st; log := log st |}.
Definition set_stdout (o : option string) (st : state) : state :=
  {| ticks := ticks st; stdout := o; console := console st;
     files := files st; dirs := dirs st; log := log st |}.
Definition set_console (c : string) (st : state) : state :=
  {| ticks := ticks st; stdout := stdout st; console := c;
     files := files st; dirs := dirs st; log := log st |}.
Definition set_files (f : list (string * string)) (st : state) : state :=
  {| ticks := ticks st; stdout := stdout st; console := console st;
     files := f; dirs := dirs st; log := log st |}.
Definition set_dirs (d : list string) (st : state) : state :=
  {| ticks := ticks st; stdout := stdout st; console := console st;
     files := files st; dirs := d; log := log st |}.
Definition set_log (l : list ErrorRecord.t) (st : state) : state :=
  {| ticks := ticks st; stdout := stdout st; console := console st;
     files := files st; dirs := dirs st; log := l |}.

Fixpoint file_content (p : string) (fs : list (string * string)) : option string :=
  match fs with
  | [] => None
  | (q, c) :: fs' => if String.eqb q p then Some c else file_content p fs'
  end.

Fixpoint file_write (p c : string) (fs : list (string * string)) : list (string * string) :=
  match fs with
  | [] => [(p, c)]
  | (q, c') :: fs' =>
      if String.eqb q p then (q, c) :: fs' else (q, c') :: file_write p c fs'
  end.

Definition file_append (p s : string) (fs : list (string * string)) : list (string * string) :=
  file_write p (match file_content p fs with Some c => c ++ s | None => s end) fs.

(** ** The monad of the script: state, and exceptions that keep the state *)

Definition M (A : Type) : Type := state -> result A * state.

Definition ret {A} (a : A) : M A := fun st => (Ok a, st).
Definition raise {A} (e : exn) : M A := fun st => (Raise e, st).
Definition bind {A B} (m : M A) (f : A -> M B) : M B :=
  fun st =>
    match m st with
    | (Ok a, st') => f a st'
    | (Raise e, st') => (Raise e, st')
    end.
Definition lift {A} (r : result A) : M A := fun st => (r, st).

Declare Scope m_scope.
Delimit Scope m_scope with M.
Notation "x <- c ;; k" := (bind c (fun x => k))
  (at level 61, c at next level, right associativity) : m_scope.
Notation "c ;; k" := (bind c (fun _ => k))
  (at level 61, right associativity) : m_scope.

(** [datetime.datetime.now()] *)
Definition now (w : World) : M datetime :=
  fun st => (Ok (clock w (ticks st)), set_ticks (S (ticks st)) st).

(** one write to [sys.stdout] *)
Definition write (s : string) : M unit :=
  fun st =>
    match stdout st with
    | None => (Ok tt, set_console (console st ++ s) st)
    | Some p => (Ok tt, set_files (file_append p s (files st)) st)
    end.

(** the text that [sys.stdout] has received *)
Definition written (st : state) : string :=
  match stdout st with
  | None => console st
  | Some p => match file_content p (files st) with Some c => c | None => "" end
  end.

(** ** The fault boundary *)

(** An exception raised by the interpreter in the script itself. *)
Definition raised (w : World) (cls msg : string) (line : nat) (fn : string) : exn :=
  {| exn_class := cls; exn_message := msg;
     exn_frame := Some (line, script_file w, fn) |}.

(** [log_error(func, error, error_type)]: one record appended to the log *)
Definition log_error (w : World) (func_name : string) (e : exn) (error_type : string)
  : M unit :=
  (t <- now w ;;
   fun st =>
     let error_data :=
       {| ErrorRecord.time := strftime_log t;
          ErrorRecord.function := func_name;
          ErrorRecord.type := error_type;
          ErrorRecord.error := exn_message e;
          ErrorRecord.line := option_map (fun f => fst (fst f)) (exn_frame e);
          ErrorRecord.file := option_map (fun f => snd (fst f)) (exn_frame e);
          ErrorRecord.function_name := option_map snd (exn_frame e) |} in
     (Ok tt, set_log (log st ++ [error_data]) st))%M.

(** [logging.shutdown()] flushes and closes the handler of the log file; the
    handler reopens the file in append mode at the next record, so the
    content of the log is untouched. *)
Definition logging_shutdown : M unit := ret tt.

(** The [wrapper] of [log_errors(func)]: the value of [func], or, when
    [func] raises, a log record and the implicit [None]. *)
Definition log_errors {A} (w : World) (func_name : string) (func : M A) : M (option A) :=
  fun st =>
    match func st with
    | (Ok a, st1) =>
        match logging_shutdown st1 with
        | (_, st2) => (Ok (Some a), st2)
        end
    | (Raise e, st1) =>
        match (log_error w func_name e (PyStr.lower (exn_class e)) ;; logging_shutdown)%M st1 with
        | (Ok _, st2) => (Ok None, st2)
        | (Raise e', st2) => (Raise e', st2)
        end
    end.

(** ** The results of the probes *)

(** The dictionaries the probes build. A field holds what the probe put
    there: a string, a number, a rounded float, or a raw null. *)

Module HostInfo.
Record t : Type := { hostname : scalar; username : scalar; domain : scalar }.
End HostInfo.

Module OsInfo.
Record t : Type := {
    install_date : scalar; name : scalar; architecture : scalar;
    version : scalar; version_info : scalar
  }.
End OsInfo.

Module AccountInfo.
Record t : Type := {
    username : scalar; domain : scalar; sid : scalar; disabled : scalar
  }.
End AccountInfo.

Module MotherboardInfo.
Record t : Type := {
    manufacturer : scalar; model : scalar; serial_number : scalar
  }.
End MotherboardInfo.

Module CpuInfo.
Record t : Type := {
    name : scalar; max_clock_speed : scalar; cores : scalar; threads : scalar
  }.
End CpuInfo.

Module RamInfo.
Record t : Type := { capacity : scalar; manufacturer : scalar; speed : scalar }.
End RamInfo.

Module GpuInfo.
Record t : Type := { name : scalar }.
End GpuInfo.

Module PartitionInfo.
Record t : Type := { name : scalar; total_size : scalar; free_size : scalar }.
End PartitionInfo.

Module StorageInfo.
Record t : Type := {
    name : scalar; size : scalar; type : scalar;
    partitions : list PartitionInfo.t
  }.
End StorageInfo.

(** [dns_servers] is the tuple of server names, or a plain field *)
Inductive names_field : Type :=
| FTuple (l : list string)
| FScalar (v : scalar).

Module NicInfo.
Record t : Type := {
    description : scalar; ip_address : scalar; subnet_mask : scalar;
    default_gateway : scalar; dns_servers : names_field; dhcp_enabled : scalar
  }.
End NicInfo.

(** [{1: r1, 2: r2, ...}], in insertion order *)
Definition indexed (A : Type) : Type := list (nat * A).

(** [enumerate(l, start)] *)
Fixpoint enumerate {A} (start : nat) (l : list A) : list (nat * A) :=
  match l with
  | [] => []
  | a :: l' => (start, a) :: enumerate (S start) l'
  end.

(** [s or "N/A"] *)
Definition str_or_na (s : string) : scalar :=
  if String.eqb s "" then SStr "N/A" else SStr s.

(** [p or "N/A"] for a string property *)
Definition or_na (p : option string) : scalar :=
  match p with
  | Some s => str_or_na s
  | None => SStr "N/A"
  end.

(** [p or "N/A"] for an integer property *)
Definition int_or_na (p : option N) : scalar :=
  match p with
  | Some n => if (n =? 0)%N then SStr "N/A" else SInt (Z.of_N n)
  | None => SStr "N/A"
  end.

(** [p[0] if p else "N/A"] for an array property *)
Definition first_or_na (p : option (list string)) : scalar :=
  match p with
  | Some (x :: _) => SStr x
  | _ => SStr "N/A"
  end.

(** a property passed through as it is *)
Definition raw_str (p : option string) : scalar :=
  match p with Some s => SStr s | None => SNone end.
Definition raw_bool (p : option bool) : scalar :=
  match p with Some b => SBool b | None => SNone end.
Definition raw_int (p : option N) : scalar :=
  match p with Some n => SInt (Z.of_N n) | None => SNone end.

Fixpoint mapM_result {A B} (f : A -> result B) (l : list A) : result (list B) :=
  match l with
  | [] => Ok []
  | a :: l' =>
      match f a with
      | Raise e => Raise e
      | Ok b =>
          match mapM_result f l' with
          | Raise e => Raise e
          | Ok bs => Ok (b :: bs)
          end
      end
  end.

(** ** The probes (the bodies that [log_errors] decorates) *)

Section Probes.

Variable w : World.

Local Open Scope m_scope.

Definition host_detection : M (option HostInfo.t) :=
    computers <- lift (wmi_ComputerSystem w) ;;
    ret (fold_left
           (fun _ computer =>
              Some {| HostInfo.hostname := or_na (Win32_ComputerSystem.Caption computer);
                      HostInfo.username := or_na (Win32_ComputerSystem.UserName computer);
                      HostInfo.domain := or_na (Win32_ComputerSystem.Domain computer) |})
           computers None).

Definition os_detection : M OsInfo.t :=
    systems <- lift (wmi_OperatingSystem w) ;;
    first <- match systems with
             | [] => raise (raised w "IndexError" "list index out of range" 191 "os_detection")
             | s :: _ => ret s
             end ;;
    install_date_str <-
      match Win32_OperatingSystem.InstallDate first with
      | None => raise (raised w "TypeError" "'NoneType' object is not subscriptable"
                         191 "os_detection")
      | Some s => ret (PyStr.take 8 s)
      end ;;
    install_date <- lift (strptime_Ymd w install_date_str) ;;
    t <- now w ;;
    let days_since_install := (day_number t - day_number install_date)%Z in
    ret {| OsInfo.install_date :=
             str_or_na (install_date_str ++ " (" ++ PyStr.of_Z days_since_install
                        ++ " days ago)");
           OsInfo.name := str_or_na (platform_system w);
           OsInfo.architecture := str_or_na (platform_architecture w);
           OsInfo.version := str_or_na (fst (platform_win32_ver w));
           OsInfo.version_info := str_or_na (snd (platform_win32_ver w)) |}.

Definition excluded_accounts : list string :=
    ["defaultaccount"; "wdagutilityaccount"; "guest"].

  (** the list comprehension of [account_detection]; a null [Name] has no
      [lower] *)
Fixpoint user_accounts (accounts : list Win32_UserAccount.t)
    : result (list Win32_UserAccount.t) :=
    match accounts with
    | [] => Ok []
    | account :: rest =>
        match Win32_UserAccount.Name account with
        | None => Raise (raised w "AttributeError"
                           "'NoneType' object has no attribute 'lower'"
                           224 "account_detection")
        | Some name =>
            match user_accounts rest with
            | Raise e => Raise e
            | Ok kept =>
                if existsb (String.eqb (PyStr.lower name)) excluded_accounts
                then Ok kept else Ok (account :: kept)
            end
        end
    end.

Definition account_entry (account : Win32_UserAccount.t) : AccountInfo.t :=
    {| AccountInfo.username := or_na (Win32_UserAccount.Name account);
       AccountInfo.domain := or_na (Win32_UserAccount.Domain account);
       AccountInfo.sid := or_na (Win32_UserAccount.SID account);
       AccountInfo.disabled :=
         SStr (if truthy (raw_bool (Win32_UserAccount.Disabled account))
               then "Yes" else "No") |}.

Definition account_detection : M (indexed AccountInfo.t) :=
    accounts <- lift (wmi_UserAccount w) ;;
    kept <- lift (user_accounts accounts) ;;
    ret (enumerate 1 (map account_entry kept)).

Definition motherboard_entry (board : Win32_BaseBoard.t) : MotherboardInfo.t :=
    {| MotherboardInfo.manufacturer := or_na (Win32_BaseBoard.Manufacturer board);
       MotherboardInfo.model := or_na (Win32_BaseBoard.Product board);
       MotherboardInfo.serial_number := or_na (Win32_BaseBoard.SerialNumber board) |}.

Definition motherboard_detection : M (indexed MotherboardInfo.t) :=
    boards <- lift (wmi_BaseBoard w) ;;
    ret (enumerate 1 (map motherboard_entry boards)).

Definition cpu_entry (cpu : Win32_Processor.t) : CpuInfo.t :=
    {| CpuInfo.name := or_na (Win32_Processor.Name cpu);
       CpuInfo.max_clock_speed :=
         str_or_na (py_str (raw_int (Win32_Processor.MaxClockSpeed cpu)) ++ " MHz");
       CpuInfo.cores := int_or_na (Win32_Processor.NumberOfCores cpu);
       CpuInfo.threads := int_or_na (Win32_Processor.NumberOfLogicalProcessors cpu) |}.

Definition cpu_detection : M (indexed CpuInfo.t) :=
    cpus <- lift (wmi_Processor w) ;;
    ret (enumerate 1 (map cpu_entry cpus)).

  (** [int(None)] raises; the capacity is rounded to 2 places *)
Definition ram_entry (ram : Win32_PhysicalMemory.t) : result RamInfo.t :=
    match Win32_PhysicalMemory.Capacity ram with
    | None =>
        Raise (raised w "TypeError"
                 "int() argument must be a string, a bytes-like object or a real number, not 'NoneType'"
                 300 "ram_detection")
    | Some bytes =>
        Ok {| RamInfo.capacity := round_gib 2 bytes;
              RamInfo.manufacturer := or_na (Win32_PhysicalMemory.Manufacturer ram);
              RamInfo.speed := int_or_na (Win32_PhysicalMemory.Speed ram) |}
    end.

Definition ram_detection : M (indexed RamInfo.t) :=
    rams <- lift (wmi_PhysicalMemory w) ;;
    entries <- lift (mapM_result ram_entry rams) ;;
    ret (enumerate 1 entries).

Definition gpu_entry (gpu : Win32_VideoController.t) : GpuInfo.t :=
    {| GpuInfo.name := or_na (Win32_VideoController.Name gpu) |}.

Definition gpu_detection : M (indexed GpuInfo.t) :=
    gpus <- lift (wmi_VideoController w) ;;
    ret (enumerate 1 (map gpu_entry gpus)).

Definition partition_info (logical_disk : Win32_LogicalDisk.t) : PartitionInfo.t :=
    {| PartitionInfo.name := raw_str (Win32_LogicalDisk.Caption logical_disk);
       PartitionInfo.total_size :=
         match Win32_LogicalDisk.Size logical_disk with
         | Some bytes => round_gib 0 bytes
         | None => SStr "N/A"
         end;
       PartitionInfo.free_size :=
         match Win32_LogicalDisk.FreeSpace logical_disk with
         | Some bytes => round_gib 0 bytes
         | None => SStr "N/A"
         end |}.

  (** the two nested loops over the associators of a disk *)
Definition disk_partitions (disk : Win32_DiskDrive.t) : result (list PartitionInfo.t) :=
    match Win32_DiskDrive.associators disk with
    | Raise e => Raise e
    | Ok parts =>
        match mapM_result
                (fun partition =>
                   match Win32_DiskPartition.associators partition with
                   | Raise e => Raise e
                   | Ok logical_disks => Ok (map partition_info logical_disks)
                   end) parts with
        | Raise e => Raise e
        | Ok groups => Ok (concat groups)
        end
    end.

Definition opt_str (p : option string) : string :=
    match p with Some s => s | None => "" end.

Definition storage_entry (disk : Win32_DiskDrive.t) : result StorageInfo.t :=
    match disk_partitions disk with
    | Raise e => Raise e
    | Ok parts =>
        Ok {| StorageInfo.name := or_na (Win32_DiskDrive.Caption disk);
              StorageInfo.size :=
                match Win32_DiskDrive.Size disk with
                | Some bytes => round_gib 2 bytes
                | None => SStr "N/A"
                end;
              StorageInfo.type :=
                SStr (if PyStr.contains "SSD" (opt_str (Win32_DiskDrive.MediaType disk))
                         || PyStr.contains "SSD" (opt_str (Win32_DiskDrive.Caption disk))
                      then "SSD" else "HDD");
              StorageInfo.partitions := parts |}
    end.

Definition storage_detection : M (indexed StorageInfo.t) :=
    disks <- lift (wmi_DiskDrive w) ;;
    entries <- lift (mapM_result storage_entry disks) ;;
    ret (enumerate 1 entries).

Definition nic_entry (nic : Win32_NetworkAdapterConfiguration.t) : NicInfo.t :=
    {| NicInfo.description := or_na (Win32_NetworkAdapterConfiguration.Description nic);
       NicInfo.ip_address := first_or_na (Win32_NetworkAdapterConfiguration.IPAddress nic);
       NicInfo.subnet_mask := first_or_na (Win32_NetworkAdapterConfiguration.IPSubnet nic);
       NicInfo.default_gateway :=
         first_or_na (Win32_NetworkAdapterConfiguration.DefaultIPGateway nic);
       NicInfo.dns_servers :=
         match Win32_NetworkAdapterConfiguration.DNSServerSearchOrder nic with
         | Some (x :: l) => FTuple (x :: l)
         | _ => FScalar (SStr "N/A")
         end;
       NicInfo.dhcp_enabled := raw_bool (Win32_NetworkAdapterConfiguration.DHCPEnabled nic) |}.

Definition nic_detection : M (indexed NicInfo.t) :=
    nics <- lift (wmi_NetworkAdapterConfiguration w) ;;
    ret (enumerate 1 (map nic_entry nics)).

End Probes.

(** ** The snapshot: the [system_info] dictionary *)

Module Key.
Inductive t : Type :=
  | host_info | account_info | os_info | motherboard_info | cpu_info
  | ram_info | gpu_info | storage_info | nic_info.

Definition eq_dec (a b : t) : {a = b} + {a <> b}.
Proof. decide equality. Defined.

Definition name (k : t) : string :=
    match k with
    | host_info => "host_info"
    | account_info => "account_info"
    | os_info => "os_info"
    | motherboard_info => "motherboard_info"
    | cpu_info => "cpu_info"
    | ram_info => "ram_info"
    | gpu_info => "gpu_info"
    | storage_info => "storage_info"
    | nic_info => "nic_info"
    end.
End Key.

(** what the probe of a key returns; the host dictionary may be empty *)
Definition info_type (k : Key.t) : Type :=
  match k with
  | Key.host_info => option HostInfo.t
  | Key.account_info => indexed AccountInfo.t
  | Key.os_info => OsInfo.t
  | Key.motherboard_info => indexed MotherboardInfo.t
  | Key.cpu_info => indexed CpuInfo.t
  | Key.ram_info => indexed RamInfo.t
  | Key.gpu_info => indexed GpuInfo.t
  | Key.storage_info => indexed StorageInfo.t
  | Key.nic_info => indexed NicInfo.t
  end.

(** One item of the dictionary. The value is [None] where the decorated
    probe returned Python's [None]. *)
Record item : Type := {
  info_key : Key.t;
  info_value : option (info_type info_key)
}.

Definition system_info_dict : Type := list item.

Definition keys (d : system_info_dict) : list Key.t := map info_key d.

(** [d[k] = v] *)
Fixpoint dict_set (d : system_info_dict) (k : Key.t) (v : option (info_type k))
  : system_info_dict :=
  match d with
  | [] => [{| info_key := k; info_value := v |}]
  | e :: d' =>
      if Key.eq_dec (info_key e) k
      then {| info_key := k; info_value := v |} :: d'
      else e :: dict_set d' k v
  end.

(** [d[k]]; [None] stands for the [KeyError] *)
Fixpoint dict_get (d : system_info_dict) (k : Key.t) : option (option (info_type k)) :=
  match d with
  | [] => None
  | e :: d' =>
      match Key.eq_dec (info_key e) k with
      | left H => Some (eq_rect (info_key e) (fun k' => option (info_type k'))
                          (info_value e) k H)
      | right _ => dict_get d' k
      end
  end.

(** ** The renderer *)

(** [print_info] only writes to [sys.stdout] and may raise: its body is a
    computation that yields the text written so far and its outcome. *)
Definition Out (A : Type) : Type := (string * result A)%type.

Definition out_ret {A} (a : A) : Out A := ("", Ok a).
Definition out_raise {A} (e : exn) : Out A := ("", Raise e).
Definition out_bind {A B} (m : Out A) (f : A -> Out B) : Out B :=
  match m with
  | (s, Ok a) => let (s', r) := f a in (s ++ s', r)
  | (s, Raise e) => (s, Raise e)
  end.

(** [print(s)] and [print(s, end="")] *)
Definition print (s : string) : Out unit := (s ++ PyStr.LF, Ok tt).
Definition print_noend (s : string) : Out unit := (s, Ok tt).

Declare Scope out_scope.
Delimit Scope out_scope with Out.
Notation "x <- c ;; k" := (out_bind c (fun x => k))
  (at level 61, c at next level, right associativity) : out_scope.
Notation "c ;; k" := (out_bind c (fun _ => k))
  (at level 61, right associativity) : out_scope.

(** a [for] loop over a list *)
Fixpoint for_each {A} (l : list A) (body : A -> Out unit) : Out unit :=
  match l with
  | [] => out_ret tt
  | a :: l' => out_bind (body a) (fun _ => for_each l' body)
  end.

Definition space : string := PyStr.TAB ++ "  ".
Definition space2 : string := PyStr.times space 2.

Section Renderer.

Variable w : World.

Local Open Scope out_scope.

  (** [system_info[key]] at line [line] of [print_info] *)
Definition lookup (system_info : system_info_dict) (k : Key.t) (line : nat)
    : Out (option (info_type k)) :=
    match dict_get system_info k with
    | Some v => out_ret v
    | None => out_raise (raised w "KeyError" ("'" ++ Key.name k ++ "'") line "print_info")
    end.

  (** [info.items()] at line [line]: [None] has no [items] *)
Definition items {A} (info : option (indexed A)) (line : nat) : Out (indexed A) :=
    match info with
    | Some d => out_ret d
    | None => out_raise (raised w "AttributeError"
                           "'NoneType' object has no attribute 'items'" line "print_info")
    end.

Definition print_host (host_info : option (option HostInfo.t)) : Out unit :=
    print_noend (PyStr.LF ++ "Host:") ;;
    h <- match host_info with
         | None => out_raise (raised w "TypeError" "'NoneType' object is not subscriptable"
                                427 "print_info")
         | Some None => out_raise (raised w "KeyError" "'hostname'" 427 "print_info")
         | Some (Some h) => out_ret h
         end ;;
    print (space2 ++ "Hostname ....... : " ++ py_str (HostInfo.hostname h)) ;;
    print (space2 ++ "Username ....... : " ++ py_str (HostInfo.username h)) ;;
    print (space2 ++ "Domain ......... : " ++ py_str (HostInfo.domain h)).

Definition print_os (os_info : option OsInfo.t) : Out unit :=
    print_noend (PyStr.LF ++ "Operation System: ") ;;
    o <- match os_info with
         | None => out_raise (raised w "TypeError" "'NoneType' object is not subscriptable"
                                434 "print_info")
         | Some o => out_ret o
         end ;;
    print ("Description .... : " ++ py_str (OsInfo.name o) ++ " " ++ py_str (OsInfo.version o)
           ++ " " ++ py_str (OsInfo.architecture o)
           ++ " (" ++ py_str (OsInfo.version_info o) ++ ")") ;;
    print (space2 ++ "install_date ... : " ++ py_str (OsInfo.install_date o)).

Definition print_account (entry : nat * AccountInfo.t) : Out unit :=
    let (idx, info) := entry in
    print_noend (PyStr.LF ++ "Account" ++ PyStr.of_nat idx ++ ":") ;;
    print (space ++ "Username ....... : " ++ py_str (AccountInfo.username info)) ;;
    print (space2 ++ "Domain ......... : " ++ py_str (AccountInfo.domain info)) ;;
    print (space2 ++ "SID Number ..... : " ++ py_str (AccountInfo.sid info)) ;;
    print (space2 ++ "Disabled ....... : " ++ py_str (AccountInfo.disabled info)).

Definition print_motherboard (entry : nat * MotherboardInfo.t) : Out unit :=
    let (idx, info) := entry in
    print_noend (PyStr.LF ++ "Motherboard" ++ PyStr.of_nat idx ++ ":") ;;
    print (space ++ "Manufacturer ... : " ++ py_str (MotherboardInfo.manufacturer info)) ;;
    print (space2 ++ "Product ........ : " ++ py_str (MotherboardInfo.model info)) ;;
    print (space2 ++ "SerialNumber  .. : " ++ py_str (MotherboardInfo.serial_number info)).

Definition print_cpu (entry : nat * CpuInfo.t) : Out unit :=
    let (idx, info) := entry in
    print_noend (PyStr.LF ++ "CPU" ++ PyStr.of_nat idx ++ ":") ;;
    print (space2 ++ "Description .... : " ++ py_str (CpuInfo.name info)) ;;
    print (space2 ++ "Clock Speed .... : " ++ py_str (CpuInfo.max_clock_speed info)) ;;
    print (space2 ++ "Cores .......... : " ++ py_str (CpuInfo.cores info)) ;;
    print (space2 ++ "Threads ........ : " ++ py_str (CpuInfo.threads info)).

Definition print_ram (entry : nat * RamInfo.t) : Out unit :=
    let (idx, info) := entry in
    print_noend (PyStr.LF ++ "RAM" ++ PyStr.of_nat idx ++ ":") ;;
    print (space2 ++ "Capacity ....... : " ++ py_str (RamInfo.capacity info) ++ " GB") ;;
    print (space2 ++ "Manufacturer ... : " ++ py_str (RamInfo.manufacturer info)) ;;
    print (space2 ++ "Speed .......... : " ++ py_str (RamInfo.speed info) ++ " MHz").

Definition print_partition (entry : nat * PartitionInfo.t) : Out unit :=
    let (partition_idx, partition) := entry in
    print_noend (space2 ++ "Partition #" ++ PyStr.of_nat partition_idx ++ " ... : ") ;;
    print_noend ("Letter: " ++ py_str (PartitionInfo.name partition)) ;;
    print (" (Size: " ++ py_str (PartitionInfo.free_size partition) ++ "/"
           ++ py_str (PartitionInfo.total_size partition) ++ " GB)").

Definition print_storage (entry : nat * StorageInfo.t) : Out unit :=
    let (idx, info) := entry in
    print_noend (PyStr.LF ++ py_str (StorageInfo.type info) ++ PyStr.of_nat idx ++ ":") ;;
    print (space2 ++ "Description .... : " ++ py_str (StorageInfo.name info)) ;;
    print (space2 ++ "Size ........... : " ++ py_str (StorageInfo.size info) ++ " GB") ;;
    for_each (enumerate 1 (StorageInfo.partitions info)) print_partition.

Definition print_gpu (entry : nat * GpuInfo.t) : Out unit :=
    let (idx, info) := entry in
    print_noend (PyStr.LF ++ "GPU" ++ PyStr.of_nat idx ++ ":   ") ;;
    print (space ++ "Description .... : " ++ py_str (GpuInfo.name info)).

  (** [', '.join(v)]: a tuple of names, the characters of a string, or a
      [TypeError] *)
Definition join_names (v : names_field) : Out string :=
    match v with
    | FTuple l => out_ret (PyStr.join ", " l)
    | FScalar (SStr s) => out_ret (PyStr.join ", " (PyStr.chars s))
    | FScalar _ => out_raise (raised w "TypeError" "can only join an iterable"
                                490 "print_info")
    end.

Definition print_nic (entry : nat * NicInfo.t) : Out unit :=
    let (idx, info) := entry in
    print_noend (PyStr.LF ++ "NIC" ++ PyStr.of_nat idx ++ ":") ;;
    print (space2 ++ "Description .... : " ++ py_str (NicInfo.description info)) ;;
    print (space2 ++ "IP Address ..... : " ++ py_str (NicInfo.ip_address info)) ;;
    print (space2 ++ "Subnet Mask .... : " ++ py_str (NicInfo.subnet_mask info)) ;;
    print (space2 ++ "DefaultGateway . : " ++ py_str (NicInfo.default_gateway info)) ;;
    names <- join_names (NicInfo.dns_servers info) ;;
    print (space2 ++ "DNS Servers .... : " ++ names) ;;
    print (space2 ++ "DHCP Enabled ... : "
           ++ (if truthy (NicInfo.dhcp_enabled info) then "Yes" else "No")).

  (** the body of [print_info] *)
Definition print_info_body (system_info : system_info_dict) : Out unit :=
    host_info <- lookup system_info Key.host_info 415 ;;
    os_info <- lookup system_info Key.os_info 416 ;;
    account_info <- lookup system_info Key.account_info 417 ;;
    motherboard_info <- lookup system_info Key.motherboard_info 418 ;;
    cpu_info <- lookup system_info Key.cpu_info 419 ;;
    ram_info <- lookup system_info Key.ram_info 420 ;;
    storage_info <- lookup system_info Key.storage_info 421 ;;
    gpu_info <- lookup system_info Key.gpu_info 422 ;;
    nic_info <- lookup system_info Key.nic_info 423 ;;
    print_host host_info ;;
    print_os os_info ;;
    (accounts <- items account_info 439 ;; for_each accounts print_account) ;;
    (boards <- items motherboard_info 447 ;; for_each boards print_motherboard) ;;
    (cpus <- items cpu_info 454 ;; for_each cpus print_cpu) ;;
    (rams <- items ram_info 462 ;; for_each rams print_ram) ;;
    (disks <- items storage_info 469 ;; for_each disks print_storage) ;;
    (gpus <- items gpu_info 479 ;; for_each gpus print_gpu) ;;
    (nics <- items nic_info 484 ;; for_each nics print_nic).

End Renderer.

(** ** Decorated functions, the report sink and the runner *)

Section Script.

Variable w : World.

Local Open Scope m_scope.

  (** the text of an [Out] computation goes to [sys.stdout] *)
Definition emit {A} (o : Out A) : M A :=
    fun st => match write (fst o) st with (_, st') => (snd o, st') end.

Definition print_info (system_info : system_info_dict) : M (option unit) :=
    log_errors w "print_info" (emit (print_info_body w system_info)).

  (** [os.system("cls")] or [os.system("clear")] *)
Definition clear_terminal : M (option unit) :=
    log_errors w "clear_terminal" (fun st => (Ok tt, set_console "" st)).

Definition exported_message (output_file_path : string) : string :=
    PyStr.LF ++ PyStr.ESC ++ "[92mExported system information successfully to: "
    ++ output_file_path ++ PyStr.ESC ++ "[0m" ++ PyStr.LF.

Definition generate_output_body (system_info : system_info_dict) : M unit :=
    let current_dir := script_dir w in
    let info_dir := path_join w current_dir "info" in
    (fun st =>
       if existsb (String.eqb info_dir) (dirs st) then (Ok tt, st)
       else match makedirs_error w info_dir with
            | Some e => (Raise e, st)
            | None => (Ok tt, set_dirs (info_dir :: dirs st) st)
            end) ;;
    let hostname := gethostname w in
    t <- now w ;;
    let date_time_string := strftime_file t in
    let output_file_path :=
      path_join w info_dir (hostname ++ "_" ++ date_time_string ++ ".txt") in
    (* with open(output_file_path, "w") as f *)
    (fun st =>
       match open_error w output_file_path with
       | Some e => (Raise e, st)
       | None => (Ok tt, set_files (file_write output_file_path "" (files st)) st)
       end) ;;
    (fun st => (Ok tt, set_stdout (Some output_file_path) st)) ;;
    print_info system_info ;;
    (fun st => (Ok tt, set_stdout None st)) ;;
    emit (print (exported_message output_file_path)).

Definition generate_output (system_info : system_info_dict) : M (option unit) :=
    log_errors w "generate_output" (generate_output_body system_info).

  (** one pair of the [detections] list: the key, and the decorated probe
      with its [__name__] *)
Record detection : Type := {
    det_key : Key.t;
    det_name : string;
    det_func : M (option (info_type det_key))
  }.

Definition decorated (k : Key.t) (name : string) (body : M (info_type k)) : detection :=
    {| det_key := k; det_name := name; det_func := log_errors w name body |}.

Definition detections : list detection :=
    [ decorated Key.host_info "host_detection" (host_detection w);
      decorated Key.account_info "account_detection" (account_detection w);
      decorated Key.os_info "os_detection" (os_detection w);
      decorated Key.motherboard_info "motherboard_detection" (motherboard_detection w);
      decorated Key.cpu_info "cpu_detection" (cpu_detection w);
      decorated Key.ram_info "ram_detection" (ram_detection w);
      decorated Key.gpu_info "gpu_detection" (gpu_detection w);
      decorated Key.storage_info "storage_detection" (storage_detection w);
      decorated Key.nic_info "nic_detection" (nic_detection w) ].

Definition progress_tail (idx total : nat) (t : datetime) (name : string) : string :=
    PyStr.ESC ++ "[93m" ++ PyStr.of_nat idx ++ "/" ++ PyStr.of_nat total
    ++ PyStr.ESC ++ "[0m > " ++ PyStr.ESC ++ "[93m" ++ strftime_hms t
    ++ PyStr.ESC ++ "[0m > " ++ PyStr.replace_char "_" " " name.

Definition initializing_message (idx total : nat) (t : datetime) (name : string) : string :=
    "[" ++ PyStr.ESC ++ "[93mINITIALIZING" ++ PyStr.ESC ++ "[0m] "
    ++ progress_tail idx total t name.

Definition ok_message (idx total : nat) (t : datetime) (name : string) : string :=
    "[" ++ PyStr.ESC ++ "[92m     OK     " ++ PyStr.ESC ++ "[0m] "
    ++ progress_tail idx total t name.

  (** the closure [perform_detection]; it updates [system_info] *)
Definition perform_detection (system_info : system_info_dict) (index total : nat)
      (d : detection) : M system_info_dict :=
    v <- det_func d ;;
    let system_info := dict_set system_info (det_key d) v in
    t <- now w ;;
    write (ok_message index total t (det_name d) ++ PyStr.CR) ;;
    write PyStr.LF ;;
    ret system_info.

  (** the [for] loop of [run_detection] from index [idx] on;
      [time.sleep] has no effect on the state *)
Fixpoint detection_loop (system_info : system_info_dict) (idx total : nat)
      (ds : list detection) : M system_info_dict :=
    match ds with
    | [] => ret system_info
    | d :: ds' =>
        t <- now w ;;
        write (initializing_message idx total t (det_name d) ++ PyStr.CR) ;;
        system_info <- perform_detection system_info idx total d ;;
        detection_loop system_info (S idx) total ds'
    end.

  (** the snapshot as the loop leaves it *)
Definition collect : M system_info_dict :=
    detection_loop [] 1 (List.length detections) detections.

Definition run_detection_body : M unit :=
    match wmi_WMI w with
    | Some e => raise e
    | None =>
        system_info <- collect ;;
        clear_terminal ;;
        print_info system_info ;;
        generate_output system_info ;;
        ret tt
    end.

Definition run_detection : M (option unit) :=
    log_errors w "run_detection" run_detection_body.

Definition main : M (option unit) :=
    log_errors w "main"
      (clear_terminal ;;
       if String.eqb (os_name w) "nt"
       then run_detection ;; ret tt
       else emit (print "This script is only compatible with Windows Operating System.")).

  (** [example_function(1, 0)]: the division raises *)
Definition example_function_1_0 : M scalar :=
    raise (raised w "ZeroDivisionError" "division by zero" 125 "example_function").

  (** the statement after it, run when the module is loaded *)
Definition example_usage : M unit :=
    r <- log_errors w "example_function" example_function_1_0 ;;
    emit (print (py_str (match r with Some v => v | None => SNone end))).

Definition script : M (option unit) := example_usage ;; main.

End Script.

(** ** The registry, key by key *)

(** the keys of [detections], in the order of the list *)
Definition declared_order : list Key.t :=
  [ Key.host_info; Key.account_info; Key.os_info; Key.motherboard_info;
    Key.cpu_info; Key.ram_info; Key.gpu_info; Key.storage_info; Key.nic_info ].

(** the probe that [detections] pairs with a key, and its [__name__] *)
Definition probe (w : World) (k : Key.t) : M (info_type k) :=
  match k with
  | Key.host_info => host_detection w
  | Key.account_info => account_detection w
  | Key.os_info => os_detection w
  | Key.motherboard_info => motherboard_detection w
  | Key.cpu_info => cpu_detection w
  | Key.ram_info => ram_detection w
  | Key.gpu_info => gpu_detection w
  | Key.storage_info => storage_detection w
  | Key.nic_info => nic_detection w
  end.

Definition probe_name (k : Key.t) : string :=
  match k with
  | Key.host_info => "host_detection"
  | Key.account_info => "account_detection"
  | Key.os_info => "os_detection"
  | Key.motherboard_info => "motherboard_detection"
  | Key.cpu_info => "cpu_detection"
  | Key.ram_info => "ram_detection"
  | Key.gpu_info => "gpu_detection"
  | Key.storage_info => "storage_detection"
  | Key.nic_info => "nic_detection"
  end.

Definition detection_of (w : World) (k : Key.t) : detection :=
  decorated w k (probe_name k) (probe w k).

Definition blank : state :=
  {| ticks := 0; stdout := None; console := ""; files := []; dirs := []; log := [] |}.

(** Whether the probe of a key raises in a world. The outcome of a probe
    does not depend on the state ([throws_spec] below). *)
Definition throws (w : World) (k : Key.t) : bool :=
  negb (is_ok (fst (probe w k blank))).

(** the progress text of one probe: the start line, overwritten in place
    by the completion line *)
Definition progress_pair (idx total : nat) (name : string) (t : datetime * datetime)
  : string :=
  initializing_message idx total (fst t) name ++ PyStr.CR
  ++ ok_message idx total (snd t) name ++ PyStr.CR ++ PyStr.LF.

Fixpoint progress_text (idx total : nat) (ks : list Key.t)
    (ts : list (datetime * datetime)) : string :=
  match ks, ts with
  | k :: ks', t :: ts' =>
      progress_pair idx total (probe_name k) t ++ progress_text (S idx) total ks' ts'
  | _, _ => ""
  end.

(** the keys of a dictionary after an assignment to [k] *)
Definition add_key (l : list Key.t) (k : Key.t) : list Key.t :=
  if in_dec Key.eq_dec k l then l else (l ++ [k])%list.



Definition info_dir (w : World) : string := path_join w (script_dir w) "info".

(** the path of the report that [generate_output] writes at time [t] *)
Definition output_file_path (w : World) (t : datetime) : string :=
  path_join w (info_dir w) (gethostname w ++ "_" ++ strftime_file t ++ ".txt").


(** ** Two simulated management interfaces *)

Definition demo_disk : Win32_DiskDrive.t :=
  {| Win32_DiskDrive.Caption := Some "NVMe SSD 500";
     Win32_DiskDrive.Size := Some 500107862016%N;
     Win32_DiskDrive.MediaType := Some "Fixed hard disk media";
     Win32_DiskDrive.associators :=
       Ok [ {| Win32_DiskPartition.associators :=
                 Ok [ {| Win32_LogicalDisk.Caption := None;
                         Win32_LogicalDisk.Size := Some 499000000000%N;
                         Win32_LogicalDisk.FreeSpace := Some 100000000000%N |} ] |} ] |}.

Definition demo_ram : Win32_PhysicalMemory.t :=
  {| Win32_PhysicalMemory.Capacity := Some 17179869184%N;
     Win32_PhysicalMemory.Manufacturer := Some "Kingston";
     Win32_PhysicalMemory.Speed := Some 3200%N |}.

Definition demo_accounts : list Win32_UserAccount.t :=
  [ {| Win32_UserAccount.Name := Some "amy"; Win32_UserAccount.Domain := Some "PC1";
       Win32_UserAccount.SID := Some "S-1-5-21-1001";
       Win32_UserAccount.Disabled := Some false |};
    {| Win32_UserAccount.Name := Some "Guest"; Win32_UserAccount.Domain := Some "PC1";
       Win32_UserAccount.SID := Some "S-1-5-21-501";
       Win32_UserAccount.Disabled := Some true |};
    {| Win32_UserAccount.Name := Some "bob"; Win32_UserAccount.Domain := Some "PC1";
       Win32_UserAccount.SID := Some "S-1-5-21-1002";
       Win32_UserAccount.Disabled := None |} ].

(** every query answers *)
Definition demo_world : World :=
  {| os_name := "nt";
     clock := fun n => {| year := 2024; month := 5; day := 17;
                          hour := 9; minute := 30; second := n |};
     script_file := "C:\sid\system_info_detection.py";
     script_dir := "C:\sid";
     path_join := fun a b => a ++ "\" ++ b;
     gethostname := "PC1";
     makedirs_error := fun _ => None;
     open_error := fun _ => None;
     platform_system := "Windows";
     platform_architecture := "64bit";
     platform_win32_ver := ("10", "10.0.19045");
     strptime_Ymd := fun _ => Ok {| year := 2023; month := 1; day := 2;
                                    hour := 0; minute := 0; second := 0 |};
     wmi_WMI := None;
     wmi_ComputerSystem :=
       Ok [ {| Win32_ComputerSystem.Caption := Some "PC1";
               Win32_ComputerSystem.UserName := Some "PC1\amy";
               Win32_ComputerSystem.Domain := None |} ];
     wmi_OperatingSystem :=
       Ok [ {| Win32_OperatingSystem.InstallDate := Some "20230102101500.000000+000" |} ];
     wmi_UserAccount := Ok demo_accounts;
     wmi_BaseBoard :=
       Ok [ {| Win32_BaseBoard.Manufacturer := Some "ACME";
               Win32_BaseBoard.Product := Some "B550";
               Win32_BaseBoard.SerialNumber := None |} ];
     wmi_Processor :=
       Ok [ {| Win32_Processor.Name := Some "Ryzen 7";
               Win32_Processor.MaxClockSpeed := Some 3600%N;
               Win32_Processor.NumberOfCores := Some 8%N;
               Win32_Processor.NumberOfLogicalProcessors := Some 16%N |} ];
     wmi_PhysicalMemory := Ok [ demo_ram ];
     wmi_VideoController := Ok [ {| Win32_VideoController.Name := Some "RTX" |} ];
     wmi_DiskDrive := Ok [ demo_disk ];
     wmi_NetworkAdapterConfiguration :=
       Ok [ {| Win32_NetworkAdapterConfiguration.Description := Some "Ethernet";
               Win32_NetworkAdapterConfiguration.IPAddress := Some ["10.0.0.2"];
               Win32_NetworkAdapterConfiguration.IPSubnet := Some ["255.0.0.0"];
               Win32_NetworkAdapterConfiguration.DefaultIPGateway := None;
               Win32_NetworkAdapterConfiguration.DNSServerSearchOrder :=
                 Some ["1.1.1.1"; "8.8.8.8"];
               Win32_NetworkAdapterConfiguration.DHCPEnabled := None |} ] |}.

Definition division_error : exn :=
  {| exn_class := "ZeroDivisionError"; exn_message := "division by zero";
     exn_frame := Some (1340, "C:\Python\Lib\site-packages\wmi.py", "query") |}.

(** the same interface, except that the processor query raises *)
Definition cpu_fail_world : World :=
  {| os_name := os_name demo_world;
     clock := clock demo_world;
     script_file := script_file demo_world;
     script_dir := script_dir demo_world;
     path_join := path_join demo_world;
     gethostname := gethostname demo_world;
     makedirs_error := makedirs_error demo_world;
     open_error := open_error demo_world;
     platform_system := platform_system demo_world;
     platform_architecture := platform_architecture demo_world;
     platform_win32_ver := platform_win32_ver demo_world;
     strptime_Ymd := strptime_Ymd demo_world;
     wmi_WMI := wmi_WMI demo_world;
     wmi_ComputerSystem := wmi_ComputerSystem demo_world;
     wmi_OperatingSystem := wmi_OperatingSystem demo_world;
     wmi_UserAccount := wmi_UserAccount demo_world;
     wmi_BaseBoard := wmi_BaseBoard demo_world;
     wmi_Processor := Raise division_error;
     wmi_PhysicalMemory := wmi_PhysicalMemory demo_world;
     wmi_VideoController := wmi_VideoController demo_world;
     wmi_DiskDrive := wmi_DiskDrive demo_world;
     wmi_NetworkAdapterConfiguration := wmi_NetworkAdapterConfiguration demo_world |}.

(** the snapshot that the loop builds in a world, from the blank state *)
Definition snapshot_of (w : World) : system_info_dict :=
  match fst (collect w blank) with
  | Ok system_info => system_info
  | Raise _ => []
  end.

(** ** Variants of an interface *)

(** a world changed in one place *)
Definition with_os_name (x : string) (w : World) : World :=
  {| os_name := x; clock := clock w; script_file := script_file w;
     script_dir := script_dir w; path_join := path_join w; gethostname := gethostname w;
     makedirs_error := makedirs_error w; open_error := open_error w;
     platform_system := platform_system w;
     platform_architecture := platform_architecture w;
     platform_win32_ver := platform_win32_ver w; strptime_Ymd := strptime_Ymd w;
     wmi_WMI := wmi_WMI w; wmi_ComputerSystem := wmi_ComputerSystem w;
     wmi_OperatingSystem := wmi_OperatingSystem w; wmi_UserAccount := wmi_UserAccount w;
     wmi_BaseBoard := wmi_BaseBoard w; wmi_Processor := wmi_Processor w;
     wmi_PhysicalMemory := wmi_PhysicalMemory w;
     wmi_VideoController := wmi_VideoController w; wmi_DiskDrive := wmi_DiskDrive w;
     wmi_NetworkAdapterConfiguration := wmi_NetworkAdapterConfiguration w |}.

Definition with_wmi_WMI (x : option exn) (w : World) : World :=
  {| os_name := os_name w; clock := clock w; script_file := script_file w;
     script_dir := script_dir w; path_join := path_join w; gethostname := gethostname w;
     makedirs_error := makedirs_error w; open_error := open_error w;
     platform_system := platform_system w;
     platform_architecture := platform_architecture w;
     platform_win32_ver := platform_win32_ver w; strptime_Ymd := strptime_Ymd w;
     wmi_WMI := x; wmi_ComputerSystem := wmi_ComputerSystem w;
     wmi_OperatingSystem := wmi_OperatingSystem w; wmi_UserAccount := wmi_UserAccount w;
     wmi_BaseBoard := wmi_BaseBoard w; wmi_Processor := wmi_Processor w;
     wmi_PhysicalMemory := wmi_PhysicalMemory w;
     wmi_VideoController := wmi_VideoController w; wmi_DiskDrive := wmi_DiskDrive w;
     wmi_NetworkAdapterConfiguration := wmi_NetworkAdapterConfiguration w |}.

Definition with_open_error (x : string -> option exn) (w : World) : World :=
  {| os_name := os_name w; clock := clock w; script_file := script_file w;
     script_dir := script_dir w; path_join := path_join w; gethostname := gethostname w;
     makedirs_error := makedirs_error w; open_error := x;
     platform_system := platform_system w;
     platform_architecture := platform_architecture w;
     platform_win32_ver := platform_win32_ver w; strptime_Ymd := strptime_Ymd w;
     wmi_WMI := wmi_WMI w; wmi_ComputerSystem := wmi_ComputerSystem w;
     wmi_OperatingSystem := wmi_OperatingSystem w; wmi_UserAccount := wmi_UserAccount w;
     wmi_BaseBoard := wmi_BaseBoard w; wmi_Processor := wmi_Processor w;
     wmi_PhysicalMemory := wmi_PhysicalMemory w;
     wmi_VideoController := wmi_VideoController w; wmi_DiskDrive := wmi_DiskDrive w;
     wmi_NetworkAdapterConfiguration := wmi_NetworkAdapterConfiguration w |}.

Definition with_makedirs_error (x : string -> option exn) (w : World) : World :=
  {| os_name := os_name w; clock := clock w; script_file := script_file w;
     script_dir := script_dir w; path_join := path_join w; gethostname := gethostname w;
     makedirs_error := x; open_error := open_error w;
     platform_system := platform_system w;
     platform_architecture := platform_architecture w;
     platform_win32_ver := platform_win32_ver w; strptime_Ymd := strptime_Ymd w;
     wmi_WMI := wmi_WMI w; wmi_ComputerSystem := wmi_ComputerSystem w;
     wmi_OperatingSystem := wmi_OperatingSystem w; wmi_UserAccount := wmi_UserAccount w;
     wmi_BaseBoard := wmi_BaseBoard w; wmi_Processor := wmi_Processor w;
     wmi_PhysicalMemory := wmi_PhysicalMemory w;
     wmi_VideoController := wmi_VideoController w; wmi_DiskDrive := wmi_DiskDrive w;
     wmi_NetworkAdapterConfiguration := wmi_NetworkAdapterConfiguration w |}.

Definition with_wmi_ComputerSystem (x : result (list Win32_ComputerSystem.t)) (w : World) : World :=
  {| os_name := os_name w; clock := clock w; script_file := script_file w;
     script_dir := script_dir w; path_join := path_join w; gethostname := gethostname w;
     makedirs_error := makedirs_error w; open_error := open_error w;
     platform_system := platform_system w;
     platform_architecture := platform_architecture w;
     platform_win32_ver := platform_win32_ver w; strptime_Ymd := strptime_Ymd w;
     wmi_WMI := wmi_WMI w; wmi_ComputerSystem := x;
     wmi_OperatingSystem := wmi_OperatingSystem w; wmi_UserAccount := wmi_UserAccount w;
     wmi_BaseBoard := wmi_BaseBoard w; wmi_Processor := wmi_Processor w;
     wmi_PhysicalMemory := wmi_PhysicalMemory w;
     wmi_VideoController := wmi_VideoController w; wmi_DiskDrive := wmi_DiskDrive w;
     wmi_NetworkAdapterConfiguration := wmi_NetworkAdapterConfiguration w |}.

Definition with_wmi_OperatingSystem (x : result (list Win32_OperatingSystem.t)) (w : World) : World :=
  {| os_name := os_name w; clock := clock w; script_file := script_file w;
     script_dir := script_dir w; path_join := path_join w; gethostname := gethostname w;
     makedirs_error := makedirs_error w; open_error := open_error w;
     platform_system := platform_system w;
     platform_architecture := platform_architecture w;
     platform_win32_ver := platform_win32_ver w; strptime_Ymd := strptime_Ymd w;
     wmi_WMI := wmi_WMI w; wmi_ComputerSystem := wmi_ComputerSystem w;
     wmi_OperatingSystem := x; wmi_UserAccount := wmi_UserAccount w;
     wmi_BaseBoard := wmi_BaseBoard w; wmi_Processor := wmi_Processor w;
     wmi_PhysicalMemory := wmi_PhysicalMemory w;
     wmi_VideoController := wmi_VideoController w; wmi_DiskDrive := wmi_DiskDrive w;
     wmi_NetworkAdapterConfiguration := wmi_NetworkAdapterConfiguration w |}.

Definition with_wmi_PhysicalMemory (x : result (list Win32_PhysicalMemory.t)) (w : World) : World :=
  {| os_name := os_name w; clock := clock w; script_file := script_file w;
     script_dir := script_dir w; path_join := path_join w; gethostname := gethostname w;
     makedirs_error := makedirs_error w; open_error := open_error w;
     platform_system := platform_system w;
     platform_architecture := platform_architecture w;
     platform_win32_ver := platform_win32_ver w; strptime_Ymd := strptime_Ymd w;
     wmi_WMI := wmi_WMI w; wmi_ComputerSystem := wmi_ComputerSystem w;
     wmi_OperatingSystem := wmi_OperatingSystem w; wmi_UserAccount := wmi_UserAccount w;
     wmi_BaseBoard := wmi_BaseBoard w; wmi_Processor := wmi_Processor w;
     wmi_PhysicalMemory := x; wmi_VideoController := wmi_VideoController w;
     wmi_DiskDrive := wmi_DiskDrive w;
     wmi_NetworkAdapterConfiguration := wmi_NetworkAdapterConfiguration w |}.

Definition with_wmi_DiskDrive (x : result (list Win32_DiskDrive.t)) (w : World) : World :=
  {| os_name := os_name w; clock := clock w; script_file := script_file w;
     script_dir := script_dir w; path_join := path_join w; gethostname := gethostname w;
     makedirs_error := makedirs_error w; open_error := open_error w;
     platform_system := platform_system w;
     platform_architecture := platform_architecture w;
     platform_win32_ver := platform_win32_ver w; strptime_Ymd := strptime_Ymd w;
     wmi_WMI := wmi_WMI w; wmi_ComputerSystem := wmi_ComputerSystem w;
     wmi_OperatingSystem := wmi_OperatingSystem w; wmi_UserAccount := wmi_UserAccount w;
     wmi_BaseBoard := wmi_BaseBoard w; wmi_Processor := wmi_Processor w;
     wmi_PhysicalMemory := wmi_PhysicalMemory w;
     wmi_VideoController := wmi_VideoController w; wmi_DiskDrive := x;
     wmi_NetworkAdapterConfiguration := wmi_NetworkAdapterConfiguration w |}.

Definition with_wmi_NetworkAdapterConfiguration (x : result (list Win32_NetworkAdapterConfiguration.t)) (w : World) : World :=
  {| os_name := os_name w; clock := clock w; script_file := script_file w;
     script_dir := script_dir w; path_join := path_join w; gethostname := gethostname w;
     makedirs_error := makedirs_error w; open_error := open_error w;
     platform_system := platform_system w;
     platform_architecture := platform_architecture w;
     platform_win32_ver := platform_win32_ver w; strptime_Ymd := strptime_Ymd w;
     wmi_WMI := wmi_WMI w; wmi_ComputerSystem := wmi_ComputerSystem w;
     wmi_OperatingSystem := wmi_OperatingSystem w; wmi_UserAccount := wmi_UserAccount w;
     wmi_BaseBoard := wmi_BaseBoard w; wmi_Processor := wmi_Processor w;
     wmi_PhysicalMemory := wmi_PhysicalMemory w;
     wmi_VideoController := wmi_VideoController w; wmi_DiskDrive := wmi_DiskDrive w;
     wmi_NetworkAdapterConfiguration := x |}.

Definition with_wmi_UserAccount (x : result (list Win32_UserAccount.t)) (w : World) : World :=
  {| os_name := os_name w; clock := clock w; script_file := script_file w;
     script_dir := script_dir w; path_join := path_join w; gethostname := gethostname w;
     makedirs_error := makedirs_error w; open_error := open_error w;
     platform_system := platform_system w;
     platform_architecture := platform_architecture w;
     platform_win32_ver := platform_win32_ver w; strptime_Ymd := strptime_Ymd w;
     wmi_WMI := wmi_WMI w; wmi_ComputerSystem := wmi_ComputerSystem w;
     wmi_OperatingSystem := wmi_OperatingSystem w; wmi_UserAccount := x;
     wmi_BaseBoard := wmi_BaseBoard w; wmi_Processor := wmi_Processor w;
     wmi_PhysicalMemory := wmi_PhysicalMemory w;
     wmi_VideoController := wmi_VideoController w; wmi_DiskDrive := wmi_DiskDrive w;
     wmi_NetworkAdapterConfiguration := wmi_NetworkAdapterConfiguration w |}.

(** an account whose name the interface reports as null *)
Definition nameless_account : Win32_UserAccount.t :=
  {| Win32_UserAccount.Name := None;
     Win32_UserAccount.Domain := Some "PC1";
     Win32_UserAccount.SID := None;
     Win32_UserAccount.Disabled := None |}.

Definition permission_error : exn :=
  {| exn_class := "PermissionError"; exn_message := "[Errno 13] Permission denied";
     exn_frame := Some (529, "C:\sid\system_info_detection.py", "generate_output") |}.

Definition access_denied : exn :=
  {| exn_class := "x_access_denied"; exn_message := "access denied";
     exn_frame := Some (1290, "C:\Python\Lib\site-packages\wmi.py", "connect") |}.

(** a memory module whose capacity the interface reports as null *)
Definition blank_ram : Win32_PhysicalMemory.t :=
  {| Win32_PhysicalMemory.Capacity := None;
     Win32_PhysicalMemory.Manufacturer := Some "Unknown";
     Win32_PhysicalMemory.Speed := None |}.

(** a disk whose partitions cannot be listed *)
Definition unreadable_disk : Win32_DiskDrive.t :=
  {| Win32_DiskDrive.Caption := Some "USB Drive";
     Win32_DiskDrive.Size := None;
     Win32_DiskDrive.MediaType := None;
     Win32_DiskDrive.associators := Raise access_denied |}.

(** a disk without partitions *)
Definition empty_disk : Win32_DiskDrive.t :=
  {| Win32_DiskDrive.Caption := Some "Card Reader";
     Win32_DiskDrive.Size := None;
     Win32_DiskDrive.MediaType := Some "Removable Media";
     Win32_DiskDrive.associators := Ok [] |}.

(** an adapter without gateway, name servers and DHCP flag *)
Definition bare_nic : Win32_NetworkAdapterConfiguration.t :=
  {| Win32_NetworkAdapterConfiguration.Description := Some "Loopback";
     Win32_NetworkAdapterConfiguration.IPAddress := Some ["127.0.0.1"];
     Win32_NetworkAdapterConfiguration.IPSubnet := None;
     Win32_NetworkAdapterConfiguration.DefaultIPGateway := None;
     Win32_NetworkAdapterConfiguration.DNSServerSearchOrder := None;
     Win32_NetworkAdapterConfiguration.DHCPEnabled := None |}.

Definition old_computer : Win32_ComputerSystem.t :=
  {| Win32_ComputerSystem.Caption := Some "OLD";
     Win32_ComputerSystem.UserName := None;
     Win32_ComputerSystem.Domain := Some "LAB" |}.

Definition this_computer : Win32_ComputerSystem.t :=
  {| Win32_ComputerSystem.Caption := Some "PC1";
     Win32_ComputerSystem.UserName := Some "PC1\amy";
     Win32_ComputerSystem.Domain := None |}.

(** ** Notions used by the statements *)

(** the record that [log_error] appends for [e], caught in [func_name]
    when the clock has been read [n] times *)
Definition error_record (w : World) (func_name : string) (e : exn) (n : nat)
  : ErrorRecord.t :=
  {| ErrorRecord.time := strftime_log (clock w n);
     ErrorRecord.function := func_name;
     ErrorRecord.type := PyStr.lower (exn_class e);
     ErrorRecord.error := exn_message e;
     ErrorRecord.line := option_map (fun f => fst (fst f)) (exn_frame e);
     ErrorRecord.file := option_map (fun f => snd (fst f)) (exn_frame e);
     ErrorRecord.function_name := option_map snd (exn_frame e) |}.

(** a computation that touches nothing but the clock *)
Definition quiet {A} (m : M A) : Prop :=
  forall st, exists n, snd (m st) = set_ticks n st.

(** one turn of the loop of [run_detection] *)
Definition iteration (w : World) (system_info : system_info_dict) (idx total : nat)
    (d : detection) : M system_info_dict :=
  (t <- now w ;;
   write (initializing_message idx total t (det_name d) ++ PyStr.CR) ;;
   perform_detection w system_info idx total d)%M.

(** an [Out] computation that ends in an exception *)
Definition fails {A} (o : Out A) : Prop := is_ok (snd o) = false.

(** what a step leaves alone: the binding of [sys.stdout], the
    directories and, while the terminal is the output, the files *)
Definition frame (st st' : state) : Prop :=
  stdout st' = stdout st /\ dirs st' = dirs st /\
  (stdout st = None -> files st' = files st).


(** the functions whose name a run can write to the error log *)
Definition logged_names : list string :=
  (map probe_name declared_order
   ++ ["print_info"; "generate_output"; "run_detection"])%list.

(** * Properties *)

(** ** Strings, files and the state *)

Lemma append_assoc (a b c : string) : (a ++ b) ++ c = a ++ (b ++ c).
Proof. induction a as [|x a IH]; simpl; [reflexivity | now rewrite IH]. Qed.

Lemma append_nil_r (a : string) : a ++ "" = a.
Proof. induction a as [|x a IH]; simpl; [reflexivity | now rewrite IH]. Qed.

Lemma file_content_write (p c : string) (fs : list (string * string)) :
  file_content p (file_write p c fs) = Some c.
Proof.
  induction fs as [|[q c'] fs IH]; simpl.
  - now rewrite String.eqb_refl.
  - destruct (String.eqb q p) eqn:E; simpl; rewrite E; [reflexivity | exact IH].
Qed.

Lemma written_write (s : string) (st : state) :
  written (snd (write s st)) = written st ++ s.
Proof.
  unfold write, written. destruct (stdout st) as [p|] eqn:E; simpl; rewrite E.
  - unfold file_append. rewrite file_content_write.
    destruct (file_content p (files st)); reflexivity.
  - reflexivity.
Qed.

Lemma written_set_ticks (n : nat) (st : state) : written (set_ticks n st) = written st.
Proof. reflexivity. Qed.

(** ** The fault boundary *)

Lemma log_errors_outcome {A} (w : World) (name : string) (body : M A) (st : state) :
  log_errors w name body st =
  match body st with
  | (Ok a, st1) => (Ok (Some a), st1)
  | (Raise e, st1) =>
      (Ok None,
       set_log (log st1 ++ [error_record w name e (ticks st1)])
         (set_ticks (S (ticks st1)) st1))
  end.
Proof.
  unfold log_errors. destruct (body st) as [[a|e] st1]; reflexivity.
Qed.

(** case analysis on an innermost scrutinee of the goal *)
Ltac break_match :=
  match goal with
  | |- context [match ?x with _ => _ end] =>
      lazymatch x with
      | context [match _ with _ => _ end] => fail
      | _ => destruct x
      end
  end.

Lemma probe_quiet (w : World) (k : Key.t) : quiet (probe w k).
Proof.
  intros st. destruct st as [n o c f d l].
  destruct k; cbv [probe host_detection account_detection os_detection
    motherboard_detection cpu_detection ram_detection gpu_detection
    storage_detection nic_detection bind lift ret raise now];
    repeat break_match; simpl; eexists; reflexivity.
Qed.

Lemma throws_spec (w : World) (k : Key.t) (st : state) :
  is_ok (fst (probe w k st)) = negb (throws w k).
Proof.
  unfold throws. rewrite negb_involutive.
  destruct k; cbv [probe host_detection account_detection os_detection
    motherboard_detection cpu_detection ram_detection gpu_detection
    storage_detection nic_detection bind lift ret raise now];
    repeat break_match; reflexivity.
Qed.

Lemma write_ok (s : string) (st : state) : write s st = (Ok tt, snd (write s st)).
Proof. unfold write. destruct (stdout st); reflexivity. Qed.

Lemma log_write (s : string) (st : state) : log (snd (write s st)) = log st.
Proof. unfold write. destruct (stdout st); reflexivity. Qed.

Lemma frame_refl (st : state) : frame st st.
Proof. repeat split. Qed.

Lemma frame_trans (a b c : state) : frame a b -> frame b c -> frame a c.
Proof.
  intros (H1 & H2 & H3) (H4 & H5 & H6). repeat split; try congruence.
  intros E. rewrite H6 by congruence. auto.
Qed.

Lemma frame_write (s : string) (st : state) : frame st (snd (write s st)).
Proof.
  unfold frame, write. destruct (stdout st) eqn:E; cbn; rewrite ?E;
    repeat split; congruence.
Qed.

Lemma frame_set_ticks (n : nat) (st : state) : frame st (set_ticks n st).
Proof. repeat split. Qed.

Lemma frame_set_log (l : list ErrorRecord.t) (st : state) : frame st (set_log l st).
Proof. repeat split. Qed.

Create HintDb frame.
#[local] Hint Resolve frame_refl frame_write frame_set_ticks frame_set_log : frame.

(** ** The loop of [run_detection] *)

Lemma detection_loop_cons (w : World) (si : system_info_dict) (idx total : nat)
    (d : detection) (ds : list detection) (st : state) :
  detection_loop w si idx total (d :: ds) st =
  bind (iteration w si idx total d)
       (fun si' => detection_loop w si' (S idx) total ds) st.
Proof.
  simpl. unfold iteration, bind.
  destruct (now w st) as [[t|e] st1]; [|reflexivity].
  destruct (write _ st1) as [[u|e] st2]; [|reflexivity].
  reflexivity.
Qed.

(** One turn: the key is assigned, both progress lines are written, and
    the log grows by one record exactly when the probe raises. *)
Lemma iteration_spec (w : World) (k : Key.t) (si : system_info_dict)
    (idx total : nat) (st : state) :
  exists v st' t,
    iteration w si idx total (detection_of w k) st = (Ok (dict_set si k v), st') /\
    frame st st' /\
    written st' = written st ++ progress_pair idx total (probe_name k) t /\
    ((throws w k = false /\ log st' = log st /\
      exists r stx, fst (probe w k stx) = Ok r /\ v = Some r) \/
     (throws w k = true /\ v = None /\
      exists rec, log st' = (log st ++ [rec])%list /\
                  ErrorRecord.function rec = probe_name k)).
Proof.
  unfold iteration, perform_detection, bind, now, detection_of, decorated.
  cbn [det_func det_key det_name].
  set (m1 := initializing_message idx total (clock w (ticks st)) (probe_name k) ++ PyStr.CR).
  rewrite (write_ok m1).
  set (st1 := snd (write m1 (set_ticks (S (ticks st)) st))).
  assert (F1 : frame st st1).
  { eapply frame_trans; [apply (frame_set_ticks (S (ticks st)))|apply frame_write]. }
  assert (W1 : written st1 = written st ++ m1) by (unfold st1; now rewrite written_write).
  assert (L1 : log st1 = log st) by (unfold st1; now rewrite log_write).
  rewrite log_errors_outcome.
  pose proof (probe_quiet w k st1) as [n Q].
  pose proof (throws_spec w k st1) as T.
  destruct (probe w k st1) as [[r|e] st2] eqn:P; cbn in Q, T; subst st2.
  - set (t2 := clock w (ticks (set_ticks n st1))).
    set (m2 := ok_message idx total t2 (probe_name k) ++ PyStr.CR).
    set (st3 := set_ticks (S (ticks (set_ticks n st1))) (set_ticks n st1)).
    rewrite (write_ok m2 st3). rewrite (write_ok PyStr.LF).
    exists (Some r), (snd (write PyStr.LF (snd (write m2 st3)))), (clock w (ticks st), t2).
    split; [reflexivity|]. split; [|split].
    + eapply frame_trans; [exact F1|].
      eapply frame_trans; [|apply frame_write].
      eapply frame_trans; [|apply frame_write].
      unfold st3. repeat split.
    + rewrite !written_write. unfold st3. rewrite !written_set_ticks, W1.
      unfold progress_pair, m1, m2. cbn [fst snd]. now rewrite !append_assoc.
    + left. split; [destruct (throws w k); [discriminate|reflexivity]|].
      split; [rewrite !log_write; exact L1|].
      exists r, st1. rewrite P. auto.
  - set (st2 := set_log (log (set_ticks n st1) ++ [error_record w (probe_name k) e (ticks (set_ticks n st1))])
                  (set_ticks (S (ticks (set_ticks n st1))) (set_ticks n st1))).
    set (t2 := clock w (ticks st2)).
    set (m2 := ok_message idx total t2 (probe_name k) ++ PyStr.CR).
    set (st3 := set_ticks (S (ticks st2)) st2).
    rewrite (write_ok m2 st3). rewrite (write_ok PyStr.LF).
    exists None, (snd (write PyStr.LF (snd (write m2 st3)))), (clock w (ticks st), t2).
    split; [reflexivity|]. split; [|split].
    + eapply frame_trans; [exact F1|].
      eapply frame_trans; [|apply frame_write].
      eapply frame_trans; [|apply frame_write].
      unfold st3, st2. repeat split.
    + rewrite !written_write. unfold st3, st2.
      rewrite written_set_ticks.
      change (written (set_log _ _)) with (written st1). rewrite W1.
      unfold progress_pair, m1, m2. cbn [fst snd]. now rewrite !append_assoc.
    + right. split; [destruct (throws w k); [reflexivity|discriminate]|].
      split; [reflexivity|].
      eexists. split; [rewrite !log_write; unfold st3, st2; cbn [log set_log set_ticks]; rewrite L1; reflexivity|].
      reflexivity.
Qed.

(** ** The dictionary *)

Lemma keys_dict_set (d : system_info_dict) (k : Key.t) (v : option (info_type k)) :
  keys (dict_set d k v) = add_key (keys d) k.
Proof.
  unfold add_key, keys. induction d as [|e d IH]; cbn [dict_set map].
  - reflexivity.
  - destruct (Key.eq_dec (info_key e) k) as [E|E]; cbn [map info_key].
    + destruct (in_dec Key.eq_dec k (info_key e :: map info_key d)) as [I|I].
      * now subst.
      * exfalso. apply I. left. exact E.
    + rewrite IH.
      destruct (in_dec Key.eq_dec k (map info_key d)) as [I|I];
        destruct (in_dec Key.eq_dec k (info_key e :: map info_key d)) as [J|J];
        try reflexivity.
      * exfalso. apply J. right. exact I.
      * exfalso. destruct J as [J|J]; [contradiction|exact (I J)].
Qed.

Lemma dict_get_set_same (d : system_info_dict) (k : Key.t) (v : option (info_type k)) :
  dict_get (dict_set d k v) k = Some v.
Proof.
  assert (R : forall H : k = k, eq_rect k (fun k' => option (info_type k')) v k H = v).
  { intros H. now rewrite (Eqdep_dec.UIP_dec Key.eq_dec H eq_refl). }
  induction d as [|e d IH]; cbn [dict_set dict_get].
  - cbn [info_key info_value]. destruct (Key.eq_dec k k) as [H|N]; [now rewrite R|contradiction].
  - destruct (Key.eq_dec (info_key e) k) as [E|E]; cbn [dict_get info_key info_value].
    + destruct (Key.eq_dec k k) as [H|N]; [now rewrite R|contradiction].
    + destruct (Key.eq_dec (info_key e) k); [contradiction|exact IH].
Qed.

Lemma dict_get_set_other (d : system_info_dict) (k k' : Key.t)
    (v : option (info_type k)) :
  k <> k' -> dict_get (dict_set d k v) k' = dict_get d k'.
Proof.
  intros N. induction d as [|e d IH]; cbn [dict_set dict_get].
  - cbn [info_key]. destruct (Key.eq_dec k k'); [contradiction|reflexivity].
  - destruct (Key.eq_dec (info_key e) k) as [E|E]; cbn [dict_get info_key info_value].
    + destruct (Key.eq_dec k k'); [contradiction|].
      destruct (Key.eq_dec (info_key e) k'); [congruence|reflexivity].
    + destruct (Key.eq_dec (info_key e) k'); [reflexivity|exact IH].
Qed.

(** The whole loop, over any list of keys: which keys the dictionary has,
    what was written, what was logged, and what each key holds. *)
Lemma detection_loop_spec (w : World) (ks : list Key.t) :
  forall (si : system_info_dict) (idx total : nat) (st : state),
  exists si' st' ts recs,
    detection_loop w si idx total (map (detection_of w) ks) st = (Ok si', st') /\
    keys si' = fold_left add_key ks (keys si) /\
    frame st st' /\
    List.length ts = List.length ks /\
    written st' = written st ++ progress_text idx total ks ts /\
    log st' = (log st ++ recs)%list /\
    map ErrorRecord.function recs = map probe_name (filter (throws w) ks) /\
    (forall k, In k ks ->
       exists v, dict_get si' k = Some v /\
         if throws w k then v = None
         else exists r stx, fst (probe w k stx) = Ok r /\ v = Some r) /\
    (forall k, ~ In k ks -> dict_get si' k = dict_get si k).
Proof.
  induction ks as [|k ks IH]; intros si idx total st.
  - exists si, st, [], []. cbn. rewrite append_nil_r, app_nil_r.
    repeat split; auto with frame. intros k [].
  - cbn [map]. rewrite detection_loop_cons. unfold bind.
    destruct (iteration_spec w k si idx total st) as (v & st1 & t & E & F & W & O).
    rewrite E.
    destruct (IH (dict_set si k v) (S idx) total st1)
      as (si' & st' & ts & recs & E' & K' & F' & Len & W' & L' & N' & V' & U').
    assert (Hv : if throws w k then v = None
                 else exists r stx, fst (probe w k stx) = Ok r /\ v = Some r).
    { destruct O as [(T & _ & X)|(T & X & _)]; rewrite T; assumption. }
    assert (HL : exists recs1,
               log st1 = (log st ++ recs1)%list /\
               map ErrorRecord.function recs1
               = map probe_name (if throws w k then [k] else [])).
    { destruct O as [(T & L1 & _)|(T & _ & rec & L1 & Fn)]; rewrite T.
      - exists []. now rewrite app_nil_r.
      - exists [rec]. cbn. now rewrite Fn. }
    destruct HL as (recs1 & L1 & N1).
    exists si', st', (t :: ts), (recs1 ++ recs)%list.
    split; [exact E'|]. split.
    { rewrite K', keys_dict_set. reflexivity. }
    split; [eapply frame_trans; eassumption|].
    split; [cbn; now rewrite Len|].
    split.
    { rewrite W', W. cbn [progress_text]. now rewrite append_assoc. }
    split; [rewrite L', L1; now rewrite app_assoc|].
    split.
    { rewrite map_app, N1, N'. cbn [filter].
      destruct (throws w k); reflexivity. }
    split.
    + intros k' [->|I].
      * destruct (in_dec Key.eq_dec k' ks) as [J|J]; [now apply V'|].
        exists v. rewrite (U' _ J), dict_get_set_same. auto.
      * now apply V'.
    + intros k' I. rewrite U'.
      * apply dict_get_set_other. intros ->. apply I. now left.
      * intros J. apply I. now right.
Qed.

Lemma detections_declared (w : World) :
  detections w = map (detection_of w) declared_order.
Proof. reflexivity. Qed.

(** ** The renderer and the sink, run on a state *)

Lemma print_info_run (w : World) (si : system_info_dict) (st : state) :
  print_info w si st =
  let st1 := snd (write (fst (print_info_body w si)) st) in
  match snd (print_info_body w si) with
  | Ok _ => (Ok (Some tt), st1)
  | Raise e =>
      (Ok None,
       set_log (log st1 ++ [error_record w "print_info" e (ticks st1)])
         (set_ticks (S (ticks st1)) st1))
  end.
Proof.
  unfold print_info. rewrite log_errors_outcome. unfold emit.
  rewrite write_ok. cbn [fst snd].
  destruct (snd (print_info_body w si)) as [[]|e]; reflexivity.
Qed.


(** ** When the renderer raises *)

Lemma fails_out_bind_l {A B} (m : Out A) (f : A -> Out B) :
  fails m -> fails (out_bind m f).
Proof. destruct m as [s [a|e]]; unfold fails; cbn; [discriminate|reflexivity]. Qed.

Lemma fails_out_bind_r {A B} (m : Out A) (f : A -> Out B) :
  (forall a, fails (f a)) -> fails (out_bind m f).
Proof.
  intros H. destruct m as [s [a|e]]; unfold fails; cbn; [|reflexivity].
  specialize (H a). unfold fails in H. destruct (f a). exact H.
Qed.

Lemma lookup_bind {B} (w : World) (si : system_info_dict) (k : Key.t) (line : nat)
    (v : option (info_type k)) (f : option (info_type k) -> Out B) :
  dict_get si k = Some v -> out_bind (lookup w si k line) f = f v.
Proof.
  intros H. unfold lookup. rewrite H. unfold out_bind, out_ret.
  destruct (f v). reflexivity.
Qed.

Ltac find_failure :=
  repeat first
    [ reflexivity
    | apply fails_out_bind_l; reflexivity
    | apply fails_out_bind_r; intros _ ].

(** A null under any key stops the renderer: every section reads its
    dictionary. *)
Lemma print_info_fails (w : World) (si : system_info_dict) :
  (forall k, exists v, dict_get si k = Some v) ->
  (exists k, dict_get si k = Some None) ->
  fails (print_info_body w si).
Proof.
  intros Hall [k Hk].
  destruct (Hall Key.host_info) as [v1 H1], (Hall Key.os_info) as [v2 H2],
    (Hall Key.account_info) as [v3 H3], (Hall Key.motherboard_info) as [v4 H4],
    (Hall Key.cpu_info) as [v5 H5], (Hall Key.ram_info) as [v6 H6],
    (Hall Key.storage_info) as [v7 H7], (Hall Key.gpu_info) as [v8 H8],
    (Hall Key.nic_info) as [v9 H9].
  unfold print_info_body.
  repeat (erewrite lookup_bind by eassumption; cbv beta).
  destruct k; rewrite Hk in *;
    match goal with H : Some None = Some _ |- _ => injection H as <- end;
    find_failure.
Qed.


(** ** The run as a whole *)

Lemma log_errors_returns {A} (w : World) (name : string) (body : M A) (st : state) :
  exists v, log_errors w name body st = (Ok v, snd (log_errors w name body st)).
Proof.
  rewrite log_errors_outcome. destruct (body st) as [[a|e] st1]; eexists; reflexivity.
Qed.

Lemma in_declared_order (k : Key.t) : In k declared_order.
Proof. destruct k; cbn; tauto. Qed.

Lemma collect_spec (w : World) (st : state) :
  exists si st' ts recs,
    collect w st = (Ok si, st') /\
    keys si = declared_order /\
    frame st st' /\
    List.length ts = 9 /\
    written st' = written st ++ progress_text 1 9 declared_order ts /\
    log st' = (log st ++ recs)%list /\
    map ErrorRecord.function recs = map probe_name (filter (throws w) declared_order) /\
    (forall k, exists v, dict_get si k = Some v /\
       if throws w k then v = None
       else exists r stx, fst (probe w k stx) = Ok r /\ v = Some r).
Proof.
  unfold collect. rewrite detections_declared.
  destruct (detection_loop_spec w declared_order [] 1
              (List.length (map (detection_of w) declared_order)) st)
    as (si & st' & ts & recs & E & K & F & Len & W & L & N & V & _).
  exists si, st', ts, recs.
  split; [exact E|]. split; [exact K|]. split; [exact F|].
  split; [exact Len|]. split; [exact W|]. split; [exact L|]. split; [exact N|].
  intros k. apply V, in_declared_order.
Qed.

Lemma run_detection_steps (w : World) (st : state) (si : system_info_dict)
    (st1 : state) :
  wmi_WMI w = None ->
  collect w st = (Ok si, st1) ->
  run_detection w st =
  (Ok (Some tt),
   snd (generate_output w si (snd (print_info w si (set_console "" st1))))).
Proof.
  intros Hw Hc. unfold run_detection. rewrite log_errors_outcome.
  unfold run_detection_body. rewrite Hw. unfold bind at 1. rewrite Hc.
  unfold bind at 1. unfold clear_terminal. rewrite log_errors_outcome.
  unfold bind at 1.
  destruct (log_errors_returns w "print_info" (emit (print_info_body w si))
              (set_console "" st1)) as [v1 E1].
  fold (print_info w si) in E1. rewrite E1.
  unfold bind at 1.
  destruct (log_errors_returns w "generate_output" (generate_output_body w si)
              (snd (print_info w si (set_console "" st1)))) as [v2 E2].
  fold (generate_output w si) in E2. rewrite E2.
  reflexivity.
Qed.

(** the sink adds at most one record to the log, its own or the
    renderer's *)
Lemma generate_output_log (w : World) (si : system_info_dict) (st : state) :
  exists extra,
    log (snd (generate_output w si st)) = (log st ++ extra)%list /\
    (extra = [] \/
     exists r, extra = [r] /\
       (ErrorRecord.function r = "print_info" \/
        ErrorRecord.function r = "generate_output")).
Proof.
  destruct st as [n o c f d l].
  unfold generate_output. rewrite log_errors_outcome.
  unfold generate_output_body, bind, now. cbn [dirs ticks].
  destruct (existsb _ d); [|destruct (makedirs_error w _)];
    cbn [ticks set_dirs];
    try (destruct (open_error w _));
    try rewrite print_info_run;
    try (destruct (print_info_body w si) as [text [[]|e']]; cbn [fst snd]);
    unfold emit, print, write;
    cbn [log set_log set_ticks set_files set_stdout set_console set_dirs
         stdout files console dirs ticks fst snd];
    first [ exists []; split; [now rewrite app_nil_r | now left]
          | eexists; split; [reflexivity|]; right; eexists; split;
            [reflexivity|]; cbn; auto ].
Qed.

(** * The claims *)

(** ** C2: the fault boundary *)

(** C2, as stated, fails: when the processor query raises, the decorated
    [cpu_detection] returns Python's [None]; no dictionary of the
    category's shape, empty or not, comes back. *)
Lemma C2_boundary_returns_null :
  fst (log_errors cpu_fail_world "cpu_detection" (cpu_detection cpu_fail_world) blank)
  = Ok None /\
  ~ (exists default : indexed CpuInfo.t,
       fst (log_errors cpu_fail_world "cpu_detection"
              (cpu_detection cpu_fail_world) blank) = Ok (Some default)).
Proof.
  split; [reflexivity|]. intros [r H]. cbv in H. discriminate.
Qed.

(** C2, amended: for every function under the boundary and every state, if
    the function raises, the boundary returns [None] (a null; there is no
    default of the category's shape), appends exactly one record to the
    error log (naming the function, with the lowered class name and the
    message of the exception) and does not raise; if the function returns,
    the boundary returns its value unchanged and appends no record. *)
Theorem C2_fault_boundary {A} (w : World) (name : string) (body : M A) (st : state) :
  match body st with
  | (Raise e, st1) =>
      exists rec st2,
        log_errors w name body st = (Ok None, st2) /\
        log st2 = (log st1 ++ [rec])%list /\
        ErrorRecord.function rec = name /\
        ErrorRecord.type rec = PyStr.lower (exn_class e) /\
        ErrorRecord.error rec = exn_message e /\
        frame st1 st2 /\ console st2 = console st1
  | (Ok a, st1) => log_errors w name body st = (Ok (Some a), st1)
  end.
Proof.
  rewrite log_errors_outcome. destruct (body st) as [[a|e] st1]; [reflexivity|].
  eexists. eexists. split; [reflexivity|]. cbn. repeat split.
Qed.

(** ** C3: the keys of the snapshot *)

(** C3: in every world (whichever probes raise there) and from every
    state, the loop of [run_detection] returns a dictionary whose keys are
    exactly the nine declared ones, each once. *)
Theorem C3_snapshot_has_the_nine_keys (w : World) (st : state) :
  exists si st',
    collect w st = (Ok si, st') /\
    keys si = [ Key.host_info; Key.account_info; Key.os_info;
                Key.motherboard_info; Key.cpu_info; Key.ram_info;
                Key.gpu_info; Key.storage_info; Key.nic_info ] /\
    map Key.name (keys si)
    = [ "host_info"; "account_info"; "os_info"; "motherboard_info"; "cpu_info";
        "ram_info"; "gpu_info"; "storage_info"; "nic_info" ] /\
    NoDup (keys si).
Proof.
  destruct (collect_spec w st) as (si & st' & ts & recs & E & K & _).
  exists si, st'. rewrite K. repeat split; try assumption.
  repeat constructor; cbn; intuition discriminate.
Qed.

(** ** C7: the progress lines *)

(** C7: in every world and from every state, what the loop writes is, for
    the nine probes in the declared order and numbered 1 to 9, the start
    line of the probe followed by its completion line, once each; whether
    a probe raises changes nothing but the times shown. *)
Theorem C7_progress_in_declared_order (w : World) (st : state) :
  exists ts : list (datetime * datetime),
    List.length ts = 9 /\
    written (snd (collect w st))
    = written st
      ++ progress_text 1 9
           [ Key.host_info; Key.account_info; Key.os_info; Key.motherboard_info;
             Key.cpu_info; Key.ram_info; Key.gpu_info; Key.storage_info;
             Key.nic_info ] ts.
Proof.
  destruct (collect_spec w st) as (si & st' & ts & recs & E & _ & _ & Len & W & _).
  exists ts. rewrite E. split; assumption.
Qed.

(** ** C4: the records of a run *)

(** C4, as stated, fails: with the processor query raising, the run
    appends three records, not one; after the record of [cpu_detection]
    come two of [print_info], which raises on the null under [cpu_info]
    once for the terminal and once for the file. *)
Lemma C4_extra_records_when_a_probe_throws :
  filter (throws cpu_fail_world) declared_order = [Key.cpu_info] /\
  map ErrorRecord.function (log (snd (run_detection cpu_fail_world blank)))
  = ["cpu_detection"; "print_info"; "print_info"] /\
  map ErrorRecord.function (log (snd (run_detection cpu_fail_world blank)))
  <> map probe_name (filter (throws cpu_fail_world) declared_order).
Proof.
  assert (E : map ErrorRecord.function
                (log (snd (run_detection cpu_fail_world blank)))
              = ["cpu_detection"; "print_info"; "print_info"])
    by (vm_compute; reflexivity).
  split; [vm_compute; reflexivity|]. split; [exact E|].
  rewrite E. vm_compute. discriminate.
Qed.

Lemma filter_nonempty_witness {A} (f : A -> bool) (l : list A) :
  filter f l <> [] -> exists a, In a l /\ f a = true.
Proof.
  induction l as [|a l IH]; cbn; [congruence|].
  destruct (f a) eqn:E.
  - intros _. exists a. auto.
  - intros H. destruct (IH H) as (b & I & F). exists b. auto.
Qed.

(** C4, amended: in every run whose session is constructed, whatever the
    log held before stays, and every probe that throws appends exactly one
    record naming it, in the declared order, none dropped and none twice.
    After them the run appends at most two more records, naming
    [print_info] or [generate_output]; when some probe throws there is at
    least one, naming [print_info]. *)
Theorem C4_one_record_per_throwing_probe (w : World) (st : state) :
  wmi_WMI w = None ->
  exists probe_recs extra,
    log (snd (run_detection w st)) = (log st ++ probe_recs ++ extra)%list /\
    map ErrorRecord.function probe_recs
    = map probe_name (filter (throws w) declared_order) /\
    Forall (fun r => ErrorRecord.function r = "print_info"
                     \/ ErrorRecord.function r = "generate_output") extra /\
    List.length extra <= 2 /\
    (filter (throws w) declared_order <> [] ->
     exists r rest, extra = r :: rest /\ ErrorRecord.function r = "print_info").
Proof.
  intros Hw.
  destruct (collect_spec w st) as (si & st1 & ts & recs & E & K & F & Len & W & L & N & V).
  rewrite (run_detection_steps w st si st1 Hw E). cbn [snd].
  destruct (generate_output_log w si (snd (print_info w si (set_console "" st1))))
    as (extra2 & L2 & X2).
  rewrite L2, print_info_run. cbv zeta.
  set (st2 := snd (write (fst (print_info_body w si)) (set_console "" st1))).
  assert (Lst2 : log st2 = log st1) by (unfold st2; now rewrite log_write).
  assert (Hall : forall k, exists v, dict_get si k = Some v).
  { intros k. destruct (V k) as (v & H & _). eauto. }
  destruct (snd (print_info_body w si)) as [[]|e] eqn:B; cbn [snd log set_log set_ticks].
  - exists recs, extra2. rewrite Lst2, L, app_assoc.
    split; [reflexivity|]. split; [exact N|].
    split; [|split].
    + destruct X2 as [->|(r & -> & X)];
        [constructor | constructor; [exact X|constructor]].
    + destruct X2 as [->|(r & -> & X)]; cbn; lia.
    + intros NE. exfalso.
      destruct (filter_nonempty_witness _ _ NE) as (k & _ & T).
      destruct (V k) as (v & H & Hv). rewrite T in Hv. subst v.
      assert (Fl : fails (print_info_body w si))
        by (apply print_info_fails; eauto).
      unfold fails in Fl. rewrite B in Fl. discriminate.
  - exists recs, (error_record w "print_info" e (ticks st2) :: extra2).
    rewrite Lst2, L. rewrite <- !app_assoc.
    split; [reflexivity|]. split; [exact N|].
    split; [|split].
    + constructor; [left; reflexivity|].
      destruct X2 as [->|(r & -> & X)];
        [constructor | constructor; [exact X|constructor]].
    + destruct X2 as [->|(r & -> & X)]; cbn; lia.
    + intros _. eauto.
Qed.

(** at the interface whose processor query raises *)
Lemma C4_one_record_per_throwing_probe_witness :
  exists probe_recs extra,
    log (snd (run_detection cpu_fail_world blank)) = (log blank ++ probe_recs ++ extra)%list /\
    map ErrorRecord.function probe_recs
    = map probe_name (filter (throws cpu_fail_world) declared_order) /\
    Forall (fun r => ErrorRecord.function r = "print_info"
                     \/ ErrorRecord.function r = "generate_output") extra /\
    List.length extra <= 2 /\
    (filter (throws cpu_fail_world) declared_order <> [] ->
     exists r rest, extra = r :: rest /\ ErrorRecord.function r = "print_info").
Proof.
  apply (C4_one_record_per_throwing_probe cpu_fail_world blank). reflexivity.
Defined.

(** ** C1: a run in which only the processor probe raises *)




(** ** C5: GiB and rounding *)

Lemma round_half_even_nearest (a b : N) :
  (0 < b)%N ->
  (2 * (round_half_even a b * b) <= 2 * a + b /\
   2 * a <= 2 * (round_half_even a b * b) + b)%N.
Proof.
  intros Hb. unfold round_half_even.
  pose proof (N.div_mod a b ltac:(lia)) as D.
  pose proof (N.mod_lt a b ltac:(lia)) as R.
  set (q := (a / b)%N) in *. set (r := (a mod b)%N) in *.
  destruct (N.ltb_spec (2 * r) b); [nia|].
  destruct (N.ltb_spec b (2 * r)); [nia|].
  destruct (N.even q); nia.
Qed.






(** ** C10: the accounts that are left out *)






(** ** C6: the file and the terminal get the same text *)



(** ** C8: nulls and the renderer *)



(** ** C9: the report file when rendering fails *)




(** * Sample runs *)

Example float_repr_16 : float_repr 2 1600 = "16.0".
Proof. reflexivity. Qed.

Example float_repr_46576 : float_repr 2 46576 = "465.76".
Proof. reflexivity. Qed.

Example float_repr_466 : float_repr 0 466 = "466.0".
Proof. reflexivity. Qed.

Example float_repr_small : float_repr 2 5 = "0.05".
Proof. reflexivity. Qed.

Example float_repr_half : float_repr 2 750 = "7.5".
Proof. reflexivity. Qed.

Example round_gib_16 : round_gib 2 17179869184 = SFloat 2 1600.
Proof. vm_compute. reflexivity. Qed.

(** [round(0.125, 2)] is 0.12 and [round(0.375, 2)] is 0.38 *)
Example round_gib_tie_to_even_down : round_gib 2 (1024 ^ 3 / 8) = SFloat 2 12.
Proof. vm_compute. reflexivity. Qed.

Example round_gib_tie_to_even_up : round_gib 2 (3 * (1024 ^ 3 / 8)) = SFloat 2 38.
Proof. vm_compute. reflexivity. Qed.

Example lower_guest : PyStr.lower "Guest" = "guest".
Proof. reflexivity. Qed.

Example days_since_install :
  (day_number (clock demo_world 0)
   - day_number {| year := 2023; month := 1; day := 2;
                   hour := 0; minute := 0; second := 0 |})%Z = 501%Z.
Proof. reflexivity. Qed.

Example demo_report_lines :
  let report := fst (print_info_body demo_world (snapshot_of demo_world)) in
  PyStr.contains "Capacity ....... : 16.0 GB" report = true /\
  PyStr.contains "Size ........... : 465.76 GB" report = true /\
  PyStr.contains "Letter: None (Size: 93.0/465.0 GB)" report = true /\
  PyStr.contains "install_date ... : 20230102 (501 days ago)" report = true /\
  PyStr.contains "Account2:" report = true /\
  PyStr.contains "Account3:" report = false /\
  PyStr.contains "DNS Servers .... : 1.1.1.1, 8.8.8.8" report = true /\
  PyStr.contains "DHCP Enabled ... : No" report = true.
Proof. vm_compute. repeat split. Qed.

Example demo_progress_first_line :
  PyStr.contains
    ("1/9" ++ PyStr.ESC ++ "[0m > " ++ PyStr.ESC ++ "[93m09:30:00" ++ PyStr.ESC
     ++ "[0m > host detection" ++ PyStr.CR)
    (console (snd (collect demo_world blank))) = true.
Proof. vm_compute. reflexivity. Qed.

(** loading the module logs the error of [example_function(1, 0)] and
    prints [None]; the run then starts with that record in the log *)
Example script_on_demo_world :
  map ErrorRecord.function (log (snd (script demo_world blank))) = ["example_function"] /\
  map ErrorRecord.type (log (snd (script demo_world blank))) = ["zerodivisionerror"] /\
  map fst (files (snd (script demo_world blank)))
  = ["C:\sid\info\PC1_2024-05-17_09-30-20.txt"].
Proof. vm_compute. repeat split. Qed.

Example script_on_cpu_fail_world :
  map ErrorRecord.function (log (snd (script cpu_fail_world blank)))
  = ["example_function"; "cpu_detection"; "print_info"; "print_info"].
Proof. vm_compute. reflexivity. Qed.

(** * Further properties of the script *)

(** ** The entry points *)

(** X1: on a platform other than Windows, [main] only clears the terminal
    and prints its one message: no session, no probe, no clock read, no
    file, no directory, no log record. *)
Theorem X1_main_on_unsupported_platform (w : World) (st : state) :
  os_name w <> "nt" ->
  stdout st = None ->
  main w st
  = (Ok (Some tt),
     set_console
       ("This script is only compatible with Windows Operating System." ++ PyStr.LF) st).
Proof.
  intros Hn Hs. apply String.eqb_neq in Hn.
  destruct st as [n o c f d l]. cbn in Hs. subst o.
  unfold main. rewrite log_errors_outcome. unfold bind, clear_terminal.
  rewrite log_errors_outcome. rewrite Hn. reflexivity.
Qed.

Lemma X1_main_on_unsupported_platform_witness :
  main (with_os_name "posix" demo_world) blank
  = (Ok (Some tt),
     set_console
       ("This script is only compatible with Windows Operating System." ++ PyStr.LF)
       blank).
Proof.
  apply (X1_main_on_unsupported_platform (with_os_name "posix" demo_world) blank).
  - discriminate.
  - reflexivity.
Defined.

(** X2: when the session cannot be constructed, [run_detection] returns
    [None] after appending one record that names [run_detection]; nothing
    is printed, no probe runs and no file is touched. *)
Theorem X2_run_without_session (w : World) (e : exn) (st : state) :
  wmi_WMI w = Some e ->
  run_detection w st
  = (Ok None,
     set_log (log st ++ [error_record w "run_detection" e (ticks st)])
       (set_ticks (S (ticks st)) st)).
Proof.
  intros H. unfold run_detection. rewrite log_errors_outcome.
  unfold run_detection_body. rewrite H. reflexivity.
Qed.

Lemma X2_run_without_session_witness :
  run_detection (with_wmi_WMI (Some access_denied) demo_world) blank
  = (Ok None,
     set_log (log blank
              ++ [error_record (with_wmi_WMI (Some access_denied) demo_world)
                    "run_detection" access_denied (ticks blank)])
       (set_ticks (S (ticks blank)) blank)).
Proof.
  apply (X2_run_without_session (with_wmi_WMI (Some access_denied) demo_world)).
  reflexivity.
Defined.

(** ** The report sink *)

(** X3: when the report file cannot be opened, [generate_output] returns
    [None]: the files and the terminal are as before (no success note),
    the directory exists, and the log has one more record, naming
    [generate_output] with the lowered class of the exception. *)
Theorem X3_sink_when_open_fails (w : World) (si : system_info_dict) (st : state)
    (e : exn) :
  stdout st = None ->
  makedirs_error w (info_dir w) = None ->
  open_error w (output_file_path w (clock w (ticks st))) = Some e ->
  exists st' rec,
    generate_output w si st = (Ok None, st') /\
    files st' = files st /\ console st' = console st /\ stdout st' = None /\
    In (info_dir w) (dirs st') /\
    log st' = (log st ++ [rec])%list /\
    ErrorRecord.function rec = "generate_output" /\
    ErrorRecord.type rec = PyStr.lower (exn_class e) /\
    ErrorRecord.error rec = exn_message e.
Proof.
  intros Hs Hm Ho. destruct st as [n o c f d l]. cbn in Hs, Ho. subst o.
  unfold generate_output. rewrite log_errors_outcome.
  unfold generate_output_body, bind, now.
  fold (info_dir w). cbn [dirs ticks]. rewrite Hm.
  destruct (existsb (String.eqb (info_dir w)) d) eqn:X;
    cbn [ticks set_dirs]; fold (output_file_path w (clock w n)); rewrite Ho;
    eexists; eexists; (split; [reflexivity|]); cbn; repeat split; auto.
  apply existsb_exists in X. destruct X as (x & I & E).
  apply String.eqb_eq in E. now subst x.
Qed.

Lemma X3_sink_when_open_fails_witness :
  exists st' rec,
    generate_output (with_open_error (fun _ => Some permission_error) demo_world)
      (snapshot_of demo_world) blank = (Ok None, st') /\
    files st' = files blank /\ console st' = console blank /\ stdout st' = None /\
    In (info_dir (with_open_error (fun _ => Some permission_error) demo_world))
       (dirs st') /\
    log st' = (log blank ++ [rec])%list /\
    ErrorRecord.function rec = "generate_output" /\
    ErrorRecord.type rec = PyStr.lower (exn_class permission_error) /\
    ErrorRecord.error rec = exn_message permission_error.
Proof.
  apply (X3_sink_when_open_fails
           (with_open_error (fun _ => Some permission_error) demo_world)
           (snapshot_of demo_world) blank permission_error); reflexivity.
Defined.

(** X4: when the output directory is missing and cannot be created,
    [generate_output] stops before it reads the clock or opens a file: it
    returns [None] and the state changes only by the record of the
    failure, naming [generate_output]. *)
Theorem X4_sink_when_makedirs_fails (w : World) (si : system_info_dict) (st : state)
    (e : exn) :
  existsb (String.eqb (info_dir w)) (dirs st) = false ->
  makedirs_error w (info_dir w) = Some e ->
  generate_output w si st
  = (Ok None,
     set_log (log st ++ [error_record w "generate_output" e (ticks st)])
       (set_ticks (S (ticks st)) st)).
Proof.
  intros Hd Hm. unfold generate_output. rewrite log_errors_outcome.
  unfold generate_output_body, bind. fold (info_dir w). rewrite Hd, Hm.
  reflexivity.
Qed.

Lemma X4_sink_when_makedirs_fails_witness :
  generate_output (with_makedirs_error (fun _ => Some permission_error) demo_world)
    (snapshot_of demo_world) blank
  = (Ok None,
     set_log (log blank
              ++ [error_record
                    (with_makedirs_error (fun _ => Some permission_error) demo_world)
                    "generate_output" permission_error (ticks blank)])
       (set_ticks (S (ticks blank)) blank)).
Proof.
  apply (X4_sink_when_makedirs_fails
           (with_makedirs_error (fun _ => Some permission_error) demo_world));
    reflexivity.
Defined.

(** X5: whatever happens in [generate_output] (the directory or the file
    cannot be created, rendering raises, or all goes well), [sys.stdout] is
    the terminal again when it returns. *)
Theorem X5_sink_restores_stdout (w : World) (si : system_info_dict) (st : state) :
  stdout st = None ->
  stdout (snd (generate_output w si st)) = None.
Proof.
  intros Hs. destruct st as [n o c f d l]. cbn in Hs. subst o.
  unfold generate_output. rewrite log_errors_outcome.
  unfold generate_output_body, bind, now. cbn [dirs ticks].
  destruct (existsb _ d); [|destruct (makedirs_error w _)];
    cbn [ticks set_dirs];
    try (destruct (open_error w _));
    try rewrite print_info_run;
    try (destruct (print_info_body w si) as [text [[]|e']]; cbn [fst snd]);
    unfold emit, print, write; reflexivity.
Qed.

Lemma X5_sink_restores_stdout_witness :
  stdout (snd (generate_output cpu_fail_world (snapshot_of cpu_fail_world) blank)) = None.
Proof.
  apply (X5_sink_restores_stdout cpu_fail_world (snapshot_of cpu_fail_world) blank).
  reflexivity.
Defined.

(** ** The renderer *)

Ltac lookup_or_stop :=
  match goal with
  | |- context [lookup ?w ?si ?k ?line] =>
      let E := fresh "E" in
      destruct (dict_get si k) as [?|] eqn:E;
      [ erewrite lookup_bind by exact E; cbv beta
      | unfold lookup at 1; rewrite E; cbn [out_bind out_raise];
        eexists; split; reflexivity ]
  end.

(** X6: a snapshot that lacks one of the nine keys is not rendered at all:
    [print_info] raises a [KeyError] before it prints anything. *)
Theorem X6_renderer_on_missing_key (w : World) (si : system_info_dict) (k : Key.t) :
  dict_get si k = None ->
  exists e, print_info_body w si = ("", Raise e) /\ exn_class e = "KeyError".
Proof.
  intros H. unfold print_info_body.
  do 9 (try lookup_or_stop).
  destruct k; congruence.
Qed.

Lemma X6_renderer_on_missing_key_witness :
  exists e, print_info_body demo_world [] = ("", Raise e) /\ exn_class e = "KeyError".
Proof.
  apply (X6_renderer_on_missing_key demo_world [] Key.nic_info). reflexivity.
Defined.


Lemma out_bind_ok {A B} (m : Out A) (f : A -> Out B) (a : A) (b : B) :
  snd m = Ok a -> snd (f a) = Ok b -> snd (out_bind m f) = Ok b.
Proof.
  destruct m as [s r]. cbn. intros -> H. destruct (f a). exact H.
Qed.

Lemma for_each_ok {A} (l : list A) (body : A -> Out unit) :
  (forall a, In a l -> snd (body a) = Ok tt) -> snd (for_each l body) = Ok tt.
Proof.
  induction l as [|a l IH]; intros H; cbn [for_each].
  - reflexivity.
  - eapply out_bind_ok; [apply H; now left|]. apply IH. intros b I. apply H. now right.
Qed.

Lemma print_storage_ok (entry : nat * StorageInfo.t) : snd (print_storage entry) = Ok tt.
Proof.
  destruct entry as [idx info]. unfold print_storage.
  eapply out_bind_ok; [reflexivity|]. eapply out_bind_ok; [reflexivity|].
  eapply out_bind_ok; [reflexivity|]. apply for_each_ok. intros [i p] _. reflexivity.
Qed.








(** X8: when the interface reports no computer system, the host probe
    returns an empty dictionary (no error is logged for it), and the
    renderer prints the heading "Host:" and stops there with the
    [KeyError] of ['hostname']: no other section is printed. *)
Theorem X8_no_computer_system (w : World) (st : state) :
  wmi_ComputerSystem w = Ok [] ->
  exists si st1,
    collect w st = (Ok si, st1) /\
    throws w Key.host_info = false /\
    dict_get si Key.host_info = Some (Some None) /\
    print_info_body w si
    = (PyStr.LF ++ "Host:", Raise (raised w "KeyError" "'hostname'" 427 "print_info")).
Proof.
  intros Hq.
  destruct (collect_spec w st) as (si & st1 & ts & recs & E & K & F & Len & W & L & N & V).
  assert (T : throws w Key.host_info = false).
  { unfold throws. cbn [probe]. unfold host_detection, bind, lift, ret.
    rewrite Hq. reflexivity. }
  assert (H1 : dict_get si Key.host_info = Some (Some None)).
  { destruct (V Key.host_info) as (v & Hk & Hv). rewrite T in Hv.
    destruct Hv as (r & stx & P & ->). cbn [probe] in P.
    unfold host_detection, bind, lift, ret in P. rewrite Hq in P. cbn in P.
    injection P as <-. exact Hk. }
  exists si, st1. split; [exact E|]. split; [exact T|]. split; [exact H1|].
  destruct (V Key.os_info) as (v2 & H2 & _), (V Key.account_info) as (v3 & H3 & _),
    (V Key.motherboard_info) as (v4 & H4 & _), (V Key.cpu_info) as (v5 & H5 & _),
    (V Key.ram_info) as (v6 & H6 & _), (V Key.storage_info) as (v7 & H7 & _),
    (V Key.gpu_info) as (v8 & H8 & _), (V Key.nic_info) as (v9 & H9 & _).
  unfold print_info_body.
  repeat (erewrite lookup_bind by eassumption; cbv beta).
  reflexivity.
Qed.

Lemma X8_no_computer_system_witness :
  exists si st1,
    collect (with_wmi_ComputerSystem (Ok []) demo_world) blank = (Ok si, st1) /\
    throws (with_wmi_ComputerSystem (Ok []) demo_world) Key.host_info = false /\
    dict_get si Key.host_info = Some (Some None) /\
    print_info_body (with_wmi_ComputerSystem (Ok []) demo_world) si
    = (PyStr.LF ++ "Host:",
       Raise (raised (with_wmi_ComputerSystem (Ok []) demo_world)
                "KeyError" "'hostname'" 427 "print_info")).
Proof.
  apply (X8_no_computer_system (with_wmi_ComputerSystem (Ok []) demo_world) blank).
  reflexivity.
Defined.

(** ** The probes *)

(** X9: a disk whose partitions have no logical disk (in particular a disk
    without partitions) is a valid entry with an empty partition list, and
    the renderer prints its heading, description and size and no partition
    line; the storage section never raises, whatever the entry. *)
Theorem X9_disk_without_volumes (disk : Win32_DiskDrive.t)
    (parts : list Win32_DiskPartition.t) (idx : nat) :
  Win32_DiskDrive.associators disk = Ok parts ->
  (forall p, In p parts -> Win32_DiskPartition.associators p = Ok []) ->
  exists e,
    storage_entry disk = Ok e /\
    StorageInfo.partitions e = [] /\
    fst (print_storage (idx, e))
    = (PyStr.LF ++ py_str (StorageInfo.type e) ++ PyStr.of_nat idx ++ ":")
      ++ (space2 ++ "Description .... : " ++ py_str (StorageInfo.name e)) ++ PyStr.LF
      ++ (space2 ++ "Size ........... : " ++ py_str (StorageInfo.size e) ++ " GB")
      ++ PyStr.LF /\
    forall entry, snd (print_storage entry) = Ok tt.
Proof.
  intros Ha Hp.
  assert (G : mapM_result
                (fun partition =>
                   match Win32_DiskPartition.associators partition with
                   | Raise e => Raise e
                   | Ok logical_disks => Ok (map partition_info logical_disks)
                   end) parts
              = Ok (map (fun _ => []) parts)).
  { clear Ha. induction parts as [|p ps IH]; cbn; [reflexivity|].
    rewrite (Hp p) by now left. cbn. rewrite IH; [reflexivity|].
    intros q I. apply Hp. now right. }
  assert (C : concat (map (fun _ : Win32_DiskPartition.t => @nil PartitionInfo.t) parts)
              = []).
  { clear. induction parts; cbn; auto. }
  unfold storage_entry, disk_partitions. rewrite Ha, G, C.
  eexists. split; [reflexivity|]. split; [reflexivity|].
  split; [|exact print_storage_ok].
  cbn [print_storage StorageInfo.partitions StorageInfo.type StorageInfo.name
       StorageInfo.size enumerate for_each out_bind out_ret print print_noend fst].
  rewrite append_nil_r, !append_assoc. reflexivity.
Qed.

Lemma X9_disk_without_volumes_witness :
  exists e,
    storage_entry empty_disk = Ok e /\
    StorageInfo.partitions e = [] /\
    fst (print_storage (2, e))
    = (PyStr.LF ++ py_str (StorageInfo.type e) ++ PyStr.of_nat 2 ++ ":")
      ++ (space2 ++ "Description .... : " ++ py_str (StorageInfo.name e)) ++ PyStr.LF
      ++ (space2 ++ "Size ........... : " ++ py_str (StorageInfo.size e) ++ " GB")
      ++ PyStr.LF /\
    forall entry, snd (print_storage entry) = Ok tt.
Proof.
  apply (X9_disk_without_volumes empty_disk [] 2).
  - reflexivity.
  - intros p [].
Defined.

Lemma mapM_result_raise {A B} (f : A -> result B) (l : list A) (a : A) (e : exn) :
  In a l -> f a = Raise e ->
  exists a' e', In a' l /\ f a' = Raise e' /\ mapM_result f l = Raise e'.
Proof.
  induction l as [|x l IH]; cbn; [tauto|]. intros I H.
  destruct (f x) as [b|e0] eqn:E.
  - destruct I as [->|I]; [congruence|].
    destruct (IH I H) as (a' & e' & I' & F' & M'). rewrite M'.
    exists a', e'. auto.
  - exists x, e0. auto.
Qed.

(** X10: the storage probe is all or nothing: if the association traversal
    raises for one disk, at the level of the disk or of one of its
    partitions, the decorated probe returns [None] and logs one record, so
    no disk is reported, the readable ones included. *)
Theorem X10_storage_probe_all_or_nothing (w : World) (disks : list Win32_DiskDrive.t)
    (d : Win32_DiskDrive.t) (st : state) :
  wmi_DiskDrive w = Ok disks ->
  In d disks ->
  (exists e, Win32_DiskDrive.associators d = Raise e) \/
  (exists ps p e, Win32_DiskDrive.associators d = Ok ps /\ In p ps /\
                  Win32_DiskPartition.associators p = Raise e) ->
  exists e',
    log_errors w "storage_detection" (storage_detection w) st
    = (Ok None,
       set_log (log st ++ [error_record w "storage_detection" e' (ticks st)])
         (set_ticks (S (ticks st)) st)).
Proof.
  intros Hq I Hr.
  assert (Hd : exists e, storage_entry d = Raise e).
  { unfold storage_entry, disk_partitions.
    destruct Hr as [(e & ->)|(ps & p & e & -> & Ip & Hp)]; [eauto|].
    destruct (mapM_result_raise
                (fun partition =>
                   match Win32_DiskPartition.associators partition with
                   | Raise e => Raise e
                   | Ok logical_disks => Ok (map partition_info logical_disks)
                   end) ps p e Ip) as (a' & e' & _ & _ & ->); [now rewrite Hp|eauto]. }
  destruct Hd as (e & Hd).
  destruct (mapM_result_raise storage_entry disks d e I Hd) as (a' & e' & _ & _ & M).
  exists e'. rewrite log_errors_outcome.
  unfold storage_detection, bind, lift. rewrite Hq, M. reflexivity.
Qed.

Lemma X10_storage_probe_all_or_nothing_witness :
  exists e',
    log_errors (with_wmi_DiskDrive (Ok [demo_disk; unreadable_disk]) demo_world)
      "storage_detection"
      (storage_detection (with_wmi_DiskDrive (Ok [demo_disk; unreadable_disk]) demo_world))
      blank
    = (Ok None,
       set_log (log blank
                ++ [error_record
                      (with_wmi_DiskDrive (Ok [demo_disk; unreadable_disk]) demo_world)
                      "storage_detection" e' (ticks blank)])
         (set_ticks (S (ticks blank)) blank)).
Proof.
  apply (X10_storage_probe_all_or_nothing
           (with_wmi_DiskDrive (Ok [demo_disk; unreadable_disk]) demo_world)
           [demo_disk; unreadable_disk] unreadable_disk blank).
  - reflexivity.
  - right. left. reflexivity.
  - left. exists access_denied. reflexivity.
Defined.

(** X11: one memory module with a null capacity makes the whole memory
    probe fail: [int(None)] raises a [TypeError], the decorated probe
    returns [None] and the log gets one record of type "typeerror"; no
    module is reported. *)
Theorem X11_ram_probe_all_or_nothing (w : World) (rams : list Win32_PhysicalMemory.t)
    (ram : Win32_PhysicalMemory.t) (st : state) :
  wmi_PhysicalMemory w = Ok rams ->
  In ram rams ->
  Win32_PhysicalMemory.Capacity ram = None ->
  exists rec,
    log_errors w "ram_detection" (ram_detection w) st
    = (Ok None, set_log (log st ++ [rec]) (set_ticks (S (ticks st)) st)) /\
    ErrorRecord.function rec = "ram_detection" /\
    ErrorRecord.type rec = "typeerror" /\
    ErrorRecord.line rec = Some 300.
Proof.
  intros Hq I Hc.
  assert (Hr : ram_entry w ram
               = Raise (raised w "TypeError"
                  "int() argument must be a string, a bytes-like object or a real number, not 'NoneType'"
                  300 "ram_detection")).
  { unfold ram_entry. now rewrite Hc. }
  destruct (mapM_result_raise (ram_entry w) rams ram _ I Hr) as (a' & e' & _ & F & M).
  assert (Ee : e' = raised w "TypeError"
                 "int() argument must be a string, a bytes-like object or a real number, not 'NoneType'"
                 300 "ram_detection").
  { unfold ram_entry in F.
    destruct (Win32_PhysicalMemory.Capacity a'); [discriminate|congruence]. }
  subst e'. rewrite log_errors_outcome.
  unfold ram_detection, bind, lift. rewrite Hq, M.
  eexists. split; [reflexivity|]. repeat split.
Qed.

Lemma X11_ram_probe_all_or_nothing_witness :
  exists rec,
    log_errors (with_wmi_PhysicalMemory (Ok [demo_ram; blank_ram]) demo_world)
      "ram_detection"
      (ram_detection (with_wmi_PhysicalMemory (Ok [demo_ram; blank_ram]) demo_world))
      blank
    = (Ok None, set_log (log blank ++ [rec]) (set_ticks (S (ticks blank)) blank)) /\
    ErrorRecord.function rec = "ram_detection" /\
    ErrorRecord.type rec = "typeerror" /\
    ErrorRecord.line rec = Some 300.
Proof.
  apply (X11_ram_probe_all_or_nothing
           (with_wmi_PhysicalMemory (Ok [demo_ram; blank_ram]) demo_world)
           [demo_ram; blank_ram] blank_ram blank).
  - reflexivity.
  - right. left. reflexivity.
  - reflexivity.
Defined.

(** X12: the host probe keeps the last computer system the interface
    reports: each record overwrites the dictionary of the one before. *)
Theorem X12_host_probe_keeps_the_last (w : World)
    (computers : list Win32_ComputerSystem.t) (last : Win32_ComputerSystem.t)
    (st : state) :
  wmi_ComputerSystem w = Ok (computers ++ [last])%list ->
  host_detection w st
  = (Ok (Some {| HostInfo.hostname := or_na (Win32_ComputerSystem.Caption last);
                 HostInfo.username := or_na (Win32_ComputerSystem.UserName last);
                 HostInfo.domain := or_na (Win32_ComputerSystem.Domain last) |}),
     st).
Proof.
  intros Hq. unfold host_detection, bind, lift, ret. rewrite Hq.
  rewrite fold_left_app. reflexivity.
Qed.

Lemma X12_host_probe_keeps_the_last_witness :
  host_detection
    (with_wmi_ComputerSystem (Ok ([old_computer] ++ [this_computer])%list) demo_world)
    blank
  = (Ok (Some {| HostInfo.hostname := or_na (Win32_ComputerSystem.Caption this_computer);
                 HostInfo.username := or_na (Win32_ComputerSystem.UserName this_computer);
                 HostInfo.domain := or_na (Win32_ComputerSystem.Domain this_computer) |}),
     blank).
Proof.
  apply (X12_host_probe_keeps_the_last
           (with_wmi_ComputerSystem (Ok ([old_computer] ++ [this_computer])%list)
              demo_world)
           [old_computer] this_computer blank).
  reflexivity.
Defined.

Lemma str_or_na_nonempty (s : string) : s <> "" -> str_or_na s = SStr s.
Proof.
  intros H. unfold str_or_na. destruct (String.eqb_spec s ""); [contradiction|reflexivity].
Qed.

(** X13: the operating system probe returns exactly when the interface
    reports at least one operating system, the first one has an install
    date, and the first 8 characters of that date parse; it then reads the
    clock once, and the install date it reports is those 8 characters
    followed by the number of days up to now (never "N/A"); further
    records are ignored. *)
Theorem X13_os_probe_outcome (w : World) :
  (throws w Key.os_info = false <->
   exists first rest date parsed,
     wmi_OperatingSystem w = Ok (first :: rest) /\
     Win32_OperatingSystem.InstallDate first = Some date /\
     strptime_Ymd w (PyStr.take 8 date) = Ok parsed) /\
  (forall st first rest date parsed,
     wmi_OperatingSystem w = Ok (first :: rest) ->
     Win32_OperatingSystem.InstallDate first = Some date ->
     strptime_Ymd w (PyStr.take 8 date) = Ok parsed ->
     os_detection w st
     = (Ok {| OsInfo.install_date :=
                SStr (PyStr.take 8 date ++ " ("
                      ++ PyStr.of_Z (day_number (clock w (ticks st)) - day_number parsed)
                      ++ " days ago)");
              OsInfo.name := str_or_na (platform_system w);
              OsInfo.architecture := str_or_na (platform_architecture w);
              OsInfo.version := str_or_na (fst (platform_win32_ver w));
              OsInfo.version_info := str_or_na (snd (platform_win32_ver w)) |},
        set_ticks (S (ticks st)) st)).
Proof.
  split.
  - unfold throws. cbn [probe]. unfold os_detection, bind, lift, ret, raise, now.
    destruct (wmi_OperatingSystem w) as [[|first rest]|e]; cbn.
    + split; [discriminate|]. intros (f & r & d & p & H & _). discriminate.
    + destruct (Win32_OperatingSystem.InstallDate first) as [date|] eqn:D; cbn.
      * destruct (strptime_Ymd w (PyStr.take 8 date)) as [parsed|e] eqn:S; cbn.
        -- split; [|reflexivity]. intros _. exists first, rest, date, parsed. auto.
        -- split; [discriminate|]. intros (f & r & d & p & H & Hd & Hs).
           injection H as <- <-. rewrite D in Hd. injection Hd as <-. congruence.
      * split; [discriminate|]. intros (f & r & d & p & H & Hd & _).
        injection H as <- <-. congruence.
    + split; [discriminate|]. intros (f & r & d & p & H & _). discriminate.
  - intros st first rest date parsed Hq Hd Hs.
    unfold os_detection, bind, lift, ret, now. rewrite Hq, Hd. cbn. rewrite Hs.
    rewrite str_or_na_nonempty; [reflexivity|].
    destruct (PyStr.take 8 date); discriminate.
Qed.

Lemma X13_os_probe_outcome_witness :
  os_detection demo_world blank
  = (Ok {| OsInfo.install_date :=
             SStr (PyStr.take 8 "20230102101500.000000+000" ++ " ("
                   ++ PyStr.of_Z (day_number (clock demo_world (ticks blank))
                                  - day_number {| year := 2023; month := 1; day := 2;
                                                  hour := 0; minute := 0; second := 0 |})
                   ++ " days ago)");
           OsInfo.name := str_or_na (platform_system demo_world);
           OsInfo.architecture := str_or_na (platform_architecture demo_world);
           OsInfo.version := str_or_na (fst (platform_win32_ver demo_world));
           OsInfo.version_info := str_or_na (snd (platform_win32_ver demo_world)) |},
     set_ticks (S (ticks blank)) blank).
Proof.
  apply (proj2 (X13_os_probe_outcome demo_world) blank
           {| Win32_OperatingSystem.InstallDate := Some "20230102101500.000000+000" |}
           []); reflexivity.
Defined.

(** X14: the guard on the clock speed of a processor never applies: the
    field is always the formatted number followed by " MHz", so a null
    clock speed is reported as "None MHz", not as "N/A". *)
Theorem X14_clock_speed_is_never_na (cpu : Win32_Processor.t) :
  CpuInfo.max_clock_speed (cpu_entry cpu)
  = SStr (match Win32_Processor.MaxClockSpeed cpu with
          | Some n => PyStr.of_Z (Z.of_N n)
          | None => "None"
          end ++ " MHz") /\
  CpuInfo.max_clock_speed (cpu_entry cpu) <> SStr "N/A".
Proof.
  assert (E : CpuInfo.max_clock_speed (cpu_entry cpu)
              = SStr (match Win32_Processor.MaxClockSpeed cpu with
                      | Some n => PyStr.of_Z (Z.of_N n)
                      | None => "None"
                      end ++ " MHz")).
  { unfold cpu_entry. cbn [CpuInfo.max_clock_speed].
    destruct (Win32_Processor.MaxClockSpeed cpu) as [n|]; cbn [raw_int py_str].
    - apply str_or_na_nonempty. destruct (PyStr.of_Z (Z.of_N n)); discriminate.
    - reflexivity. }
  split; [exact E|]. rewrite E. intros H. injection H as H.
  apply (f_equal String.length) in H.
  assert (L : forall a b, String.length (a ++ b) = String.length a + String.length b).
  { intros a b. induction a as [|c a IH]; cbn; [reflexivity|now rewrite IH]. }
  rewrite L in H. cbn in H. lia.
Qed.

(** X15: how an adapter is reported and rendered: the section never
    raises; when the adapter has no name servers (null or empty), the
    placeholder "N/A" is joined character by character and the line shows
    "N, /, A"; a null DHCP flag is shown as "No", like a false one. *)
Theorem X15_adapter_section (w : World) (nic : Win32_NetworkAdapterConfiguration.t)
    (idx : nat) :
  print_nic w (idx, nic_entry nic)
  = ((PyStr.LF ++ "NIC" ++ PyStr.of_nat idx ++ ":")
     ++ (space2 ++ "Description .... : "
         ++ py_str (or_na (Win32_NetworkAdapterConfiguration.Description nic)))
     ++ PyStr.LF
     ++ (space2 ++ "IP Address ..... : "
         ++ py_str (first_or_na (Win32_NetworkAdapterConfiguration.IPAddress nic)))
     ++ PyStr.LF
     ++ (space2 ++ "Subnet Mask .... : "
         ++ py_str (first_or_na (Win32_NetworkAdapterConfiguration.IPSubnet nic)))
     ++ PyStr.LF
     ++ (space2 ++ "DefaultGateway . : "
         ++ py_str (first_or_na (Win32_NetworkAdapterConfiguration.DefaultIPGateway nic)))
     ++ PyStr.LF
     ++ (space2 ++ "DNS Servers .... : "
         ++ match Win32_NetworkAdapterConfiguration.DNSServerSearchOrder nic with
            | Some (x :: l) => PyStr.join ", " (x :: l)
            | _ => "N, /, A"
            end)
     ++ PyStr.LF
     ++ (space2 ++ "DHCP Enabled ... : "
         ++ match Win32_NetworkAdapterConfiguration.DHCPEnabled nic with
            | Some true => "Yes"
            | _ => "No"
            end)
     ++ PyStr.LF,
     Ok tt).
Proof.
  unfold print_nic, nic_entry.
  cbn [NicInfo.description NicInfo.ip_address NicInfo.subnet_mask
       NicInfo.default_gateway NicInfo.dns_servers NicInfo.dhcp_enabled].
  destruct (Win32_NetworkAdapterConfiguration.DNSServerSearchOrder nic) as [[|x l]|];
    destruct (Win32_NetworkAdapterConfiguration.DHCPEnabled nic) as [[|]|];
    cbn [join_names out_bind out_ret print print_noend raw_bool truthy PyStr.chars
         PyStr.join String.concat];
    rewrite ?append_assoc; reflexivity.
Qed.

(** ** The log and the files of a whole run *)

Lemma named_by_probes (recs : list ErrorRecord.t) (ks : list Key.t) :
  map ErrorRecord.function recs = map probe_name ks ->
  (forall k, In k ks -> In (probe_name k) logged_names) ->
  Forall (fun r => In (ErrorRecord.function r) logged_names) recs.
Proof.
  revert ks. induction recs as [|r recs IH]; intros [|k ks] H A;
    try discriminate; constructor.
  - cbn in H. injection H as -> _. apply A. now left.
  - cbn in H. injection H as _ H. apply (IH ks H). intros k' I. apply A. now right.
Qed.

Lemma probe_name_logged (k : Key.t) : In (probe_name k) logged_names.
Proof. destruct k; cbn; tauto. Qed.

Lemma run_detection_log (w : World) (st : state) :
  exists extra,
    log (snd (run_detection w st)) = (log st ++ extra)%list /\
    Forall (fun r => In (ErrorRecord.function r) logged_names) extra.
Proof.
  destruct (wmi_WMI w) as [e|] eqn:Hw.
  - unfold run_detection. rewrite log_errors_outcome.
    unfold run_detection_body. rewrite Hw. cbn.
    eexists. split; [reflexivity|]. constructor; [cbn; tauto|constructor].
  - destruct (collect_spec w st)
      as (si & st1 & ts & recs & E & K & F & Len & W & L & N & V).
    rewrite (run_detection_steps w st si st1 Hw E). cbn [snd].
    destruct (generate_output_log w si (snd (print_info w si (set_console "" st1))))
      as (extra2 & L2 & X2).
    assert (A1 : Forall (fun r => In (ErrorRecord.function r) logged_names) recs).
    { apply (named_by_probes recs _ N). intros k _. apply probe_name_logged. }
    assert (A2 : Forall (fun r => In (ErrorRecord.function r) logged_names) extra2).
    { destruct X2 as [->|(r & -> & [X|X])]; repeat constructor; rewrite X; cbn; tauto. }
    rewrite L2, print_info_run. cbv zeta.
    set (st2 := snd (write (fst (print_info_body w si)) (set_console "" st1))).
    assert (Lst2 : log st2 = log st1) by (unfold st2; now rewrite log_write).
    destruct (snd (print_info_body w si)) as [[]|e];
      cbn [snd log set_log set_ticks]; rewrite Lst2, L.
    + exists (recs ++ extra2)%list. split; [now rewrite app_assoc|].
      apply Forall_app. auto.
    + exists (recs ++ error_record w "print_info" e (ticks st2) :: extra2)%list.
      split; [now rewrite <- !app_assoc|].
      apply Forall_app. split; [exact A1|]. constructor; [cbn; tauto|exact A2].
Qed.

(** X16: [main] never raises, the error log is only appended to, and the
    records a run of [main] appends name a probe, [print_info],
    [generate_output] or [run_detection]; none names [main] or
    [clear_terminal]. *)
Theorem X16_main_returns_and_appends (w : World) (st : state) :
  exists v extra,
    fst (main w st) = Ok v /\
    log (snd (main w st)) = (log st ++ extra)%list /\
    Forall (fun r => In (ErrorRecord.function r)
                       [ "host_detection"; "account_detection"; "os_detection";
                         "motherboard_detection"; "cpu_detection"; "ram_detection";
                         "gpu_detection"; "storage_detection"; "nic_detection";
                         "print_info"; "generate_output"; "run_detection" ]) extra.
Proof.
  assert (Hm : main w st
               = (Ok (Some tt),
                  if String.eqb (os_name w) "nt"
                  then snd (run_detection w (set_console "" st))
                  else snd (emit (print
                         "This script is only compatible with Windows Operating System.")
                         (set_console "" st)))).
  { unfold main. rewrite log_errors_outcome. unfold bind at 1.
    unfold clear_terminal. rewrite log_errors_outcome.
    destruct (String.eqb (os_name w) "nt").
    - unfold bind.
      destruct (log_errors_returns w "run_detection" (run_detection_body w)
                  (set_console "" st)) as [v E].
      fold (run_detection w) in E. rewrite E. reflexivity.
    - unfold emit. rewrite write_ok. reflexivity. }
  rewrite Hm. cbn [fst snd].
  destruct (String.eqb (os_name w) "nt").
  - destruct (run_detection_log w (set_console "" st)) as (extra & L & A).
    exists (Some tt), extra. split; [reflexivity|]. split; [exact L|exact A].
  - unfold emit. rewrite write_ok. cbn [fst snd print].
    exists (Some tt), []. split; [reflexivity|].
    split; [rewrite log_write, app_nil_r; reflexivity|constructor].
Qed.






(** ** Sizes *)

(** X18: a size that is a whole number [g] of GiB is converted exactly
    and shown with a single zero decimal, whether it is rounded to 2
    places (memory, disks) or to 0 places (partitions): [g] followed by
    ".0". *)
Theorem X18_whole_gib (g : N) :
  round_gib 2 (g * 1024 ^ 3) = SFloat 2 (g * 100) /\
  round_gib 0 (g * 1024 ^ 3) = SFloat 0 g /\
  py_str (round_gib 2 (g * 1024 ^ 3)) = PyStr.of_N g ++ ".0" /\
  py_str (round_gib 0 (g * 1024 ^ 3)) = PyStr.of_N g ++ ".0".
Proof.
  assert (R : forall k, round_half_even (k * 1024 ^ 3) (1024 ^ 3) = k).
  { intros k. unfold round_half_even.
    rewrite N.div_mul by discriminate. rewrite N.Div0.mod_mul. reflexivity. }
  assert (E2 : round_gib 2 (g * 1024 ^ 3) = SFloat 2 (g * 100)).
  { unfold round_gib. f_equal. change (10 ^ N.of_nat 2)%N with 100%N.
    replace (g * 1024 ^ 3 * 100)%N with (g * 100 * 1024 ^ 3)%N by lia. apply R. }
  assert (E0 : round_gib 0 (g * 1024 ^ 3) = SFloat 0 g).
  { unfold round_gib. f_equal. change (10 ^ N.of_nat 0)%N with 1%N.
    rewrite N.mul_1_r. apply R. }
  split; [exact E2|]. split; [exact E0|]. rewrite E2, E0.
  cbn [py_str]. unfold float_repr.
  change (10 ^ N.of_nat 2)%N with 100%N. change (10 ^ N.of_nat 0)%N with 1%N.
  rewrite N.div_mul by discriminate. rewrite N.Div0.mod_mul. rewrite N.div_1_r.
  split; reflexivity.
Qed.

Lemma round_half_even_monotone (a a' b : N) :
  (0 < b)%N -> (a <= a')%N -> (round_half_even a b <= round_half_even a' b)%N.
Proof.
  intros Hb Ha.
  destruct (N.eq_dec a a') as [->|Ne]; [reflexivity|].
  pose proof (round_half_even_nearest a b Hb) as (H1 & H2).
  pose proof (round_half_even_nearest a' b Hb) as (H3 & H4).
  set (k := round_half_even a b) in *. set (k' := round_half_even a' b) in *.
  destruct (N.le_gt_cases k k') as [L|G]; [exact L|exfalso].
  assert (2 * (k' * b) + 2 * b <= 2 * (k * b))%N by nia.
  lia.
Qed.

(** X19: rounding keeps the order of sizes: for a volume whose free space
    does not exceed its size, the free size reported does not exceed the
    total size reported. *)
Theorem X19_free_size_at_most_total (logical_disk : Win32_LogicalDisk.t)
    (free total : N) :
  Win32_LogicalDisk.FreeSpace logical_disk = Some free ->
  Win32_LogicalDisk.Size logical_disk = Some total ->
  (free <= total)%N ->
  exists kf kt,
    PartitionInfo.free_size (partition_info logical_disk) = SFloat 0 kf /\
    PartitionInfo.total_size (partition_info logical_disk) = SFloat 0 kt /\
    (kf <= kt)%N.
Proof.
  intros Hf Ht Hle. unfold partition_info.
  cbn [PartitionInfo.free_size PartitionInfo.total_size]. rewrite Hf, Ht.
  unfold round_gib. eexists. eexists. split; [reflexivity|]. split; [reflexivity|].
  apply round_half_even_monotone; [reflexivity|].
  apply N.mul_le_mono_r. exact Hle.
Qed.

Lemma X19_free_size_at_most_total_witness :
  exists kf kt,
    PartitionInfo.free_size
      (partition_info {| Win32_LogicalDisk.Caption := Some "C:";
                         Win32_LogicalDisk.Size := Some 499000000000%N;
                         Win32_LogicalDisk.FreeSpace := Some 100000000000%N |})
    = SFloat 0 kf /\
    PartitionInfo.total_size
      (partition_info {| Win32_LogicalDisk.Caption := Some "C:";
                         Win32_LogicalDisk.Size := Some 499000000000%N;
                         Win32_LogicalDisk.FreeSpace := Some 100000000000%N |})
    = SFloat 0 kt /\
    (kf <= kt)%N.
Proof.
  apply (X19_free_size_at_most_total
           {| Win32_LogicalDisk.Caption := Some "C:";
              Win32_LogicalDisk.Size := Some 499000000000%N;
              Win32_LogicalDisk.FreeSpace := Some 100000000000%N |}
           100000000000 499000000000).
  - reflexivity.
  - reflexivity.
  - vm_compute. discriminate.
Defined.

(** ** More on the probes and on loading the module *)

(** X20: one account with a null name makes the whole account probe fail:
    the comprehension raises an [AttributeError], the decorated probe
    returns [None] and the log gets one record of type "attributeerror";
    no account is reported. *)
Theorem X20_account_probe_on_null_name (w : World)
    (accounts : list Win32_UserAccount.t) (account : Win32_UserAccount.t) (st : state) :
  wmi_UserAccount w = Ok accounts ->
  In account accounts ->
  Win32_UserAccount.Name account = None ->
  exists rec,
    log_errors w "account_detection" (account_detection w) st
    = (Ok None, set_log (log st ++ [rec]) (set_ticks (S (ticks st)) st)) /\
    ErrorRecord.function rec = "account_detection" /\
    ErrorRecord.type rec = "attributeerror".
Proof.
  intros Hq I Hn.
  assert (R : user_accounts w accounts
              = Raise (raised w "AttributeError"
                         "'NoneType' object has no attribute 'lower'"
                         224 "account_detection")).
  { clear Hq. induction accounts as [|a l IH]; [destruct I|]. cbn [user_accounts].
    destruct I as [->|I].
    - now rewrite Hn.
    - rewrite (IH I). destruct (Win32_UserAccount.Name a); reflexivity. }
  rewrite log_errors_outcome. unfold account_detection, bind, lift.
  rewrite Hq, R. eexists. split; [reflexivity|]. split; reflexivity.
Qed.

Lemma X20_account_probe_on_null_name_witness :
  exists rec,
    log_errors (with_wmi_UserAccount (Ok (demo_accounts ++ [nameless_account])%list)
                  demo_world)
      "account_detection"
      (account_detection
         (with_wmi_UserAccount (Ok (demo_accounts ++ [nameless_account])%list)
            demo_world)) blank
    = (Ok None, set_log (log blank ++ [rec]) (set_ticks (S (ticks blank)) blank)) /\
    ErrorRecord.function rec = "account_detection" /\
    ErrorRecord.type rec = "attributeerror".
Proof.
  apply (X20_account_probe_on_null_name
           (with_wmi_UserAccount (Ok (demo_accounts ++ [nameless_account])%list)
              demo_world)
           (demo_accounts ++ [nameless_account])%list nameless_account blank).
  - reflexivity.
  - apply in_or_app. right. left. reflexivity.
  - reflexivity.
Defined.


(** X22: loading the module runs [print(example_function(1, 0))]: in every
    world and state the division raises, so the log gets one record of
    [example_function] with type "zerodivisionerror", at line 125, and
    "None" is written to [sys.stdout]; nothing is raised. *)
Theorem X22_loading_the_module (w : World) (st : state) :
  exists rec st',
    example_usage w st = (Ok tt, st') /\
    written st' = written st ++ "None" ++ PyStr.LF /\
    frame st st' /\
    log st' = (log st ++ [rec])%list /\
    ErrorRecord.function rec = "example_function" /\
    ErrorRecord.type rec = "zerodivisionerror" /\
    ErrorRecord.error rec = "division by zero" /\
    ErrorRecord.line rec = Some 125 /\
    ErrorRecord.function_name rec = Some "example_function".
Proof.
  unfold example_usage, bind. rewrite log_errors_outcome.
  unfold example_function_1_0, raise. unfold emit. rewrite write_ok.
  cbn [fst snd print py_str].
  eexists. eexists. split; [reflexivity|].
  rewrite written_write, log_write.
  split; [reflexivity|]. split.
  { eapply frame_trans; [|apply frame_write]. repeat split. }
  repeat split.
Qed.

(** * More sample runs *)

Example bare_adapter_lines :
  let text := fst (print_nic demo_world (3, nic_entry bare_nic)) in
  PyStr.contains "NIC3:" text = true /\
  PyStr.contains "Subnet Mask .... : N/A" text = true /\
  PyStr.contains "DNS Servers .... : N, /, A" text = true /\
  PyStr.contains "DHCP Enabled ... : No" text = true.
Proof. vm_compute. repeat split. Qed.

Example null_clock_speed :
  CpuInfo.max_clock_speed
    (cpu_entry {| Win32_Processor.Name := None; Win32_Processor.MaxClockSpeed := None;
                  Win32_Processor.NumberOfCores := Some 0%N;
                  Win32_Processor.NumberOfLogicalProcessors := None |})
  = SStr "None MHz".
Proof. reflexivity. Qed.

Example main_on_posix :
  console (snd (main (with_os_name "posix" demo_world) blank))
  = "This script is only compatible with Windows Operating System." ++ PyStr.LF.
Proof. reflexivity. Qed.

Example two_disks_one_unreadable :
  fst (collect (with_wmi_DiskDrive (Ok [demo_disk; unreadable_disk]) demo_world) blank)
  = fst (collect (with_wmi_DiskDrive (Raise access_denied) demo_world) blank).
Proof. vm_compute. reflexivity. Qed.
